(** * Residential Smart Meter Analyzer: the analysis run of [streamlit_app.py]

    The script is one top-to-bottom Streamlit run over a table loaded from a
    CSV file.  This development embeds the run as pure functions over lists
    of rows, with Python exceptions as an explicit error result, and states
    the properties of the forecasting, anomaly-detection, report and
    cost-summary steps against that embedding.

    Conventions.
    - A pandas DataFrame is the list of its rows, in index order; a boolean
      mask [df[mask]] is [List.filter].
    - A calendar date (a pandas Timestamp at midnight) is its day number, the
      number of days since 1970-01-01, in [Z].
    - Consumption readings and point forecasts are finite floats, idealised
      as exact rationals [Qc] (rounding is not modelled); the only
      non-number that the modelled steps can produce is the [NaN] that
      pandas returns for the mean of an empty column.
    - Calls into Prophet and scikit-learn are modelled by what the run
      observes of them: their input validation, the dates and the shape of
      their results.  The fitted numbers themselves (Prophet's [yhat], the
      isolation forest's decision function) are parameters.
    - Widget and chart calls ([st.header], [st.plotly_chart], ...) only
      display values and are left out, as is the SMTP session, whose
      failures the script catches. *)

From Stdlib Require Import ZArith QArith Qround Qcanon List Bool Lia Sorting.Sorted.
From stdpp Require Import base gmap strings list fin_maps sorting.
Import ListNotations.

Set Warnings "-clear-no-such-hyp".
Local Open Scope Z_scope.

(** ** Python exceptions as results *)

(** The exceptions an analysis run can end with.  [KeyError],
    [ValueError] and [RuntimeError] are the ones the modelled statements
    raise; [InsufficientData] is the error kind of the design document,
    listed so that statements about it can be written: no statement of the
    script raises it. *)
Inductive exn : Type :=
  | KeyError (key : string)
  | ValueError (msg : string)
  | RuntimeError (msg : string)
  | InsufficientData.

Inductive result (A : Type) : Type :=
  | Ok (a : A)
  | Raise (e : exn).
Arguments Ok {A} a.
Arguments Raise {A} e.

(** Exception propagation, as instances of stdpp's monad classes:
    [x ← r; k] runs [k] only when [r] did not raise. *)
#[export] Instance result_ret : MRet result := fun A a => Ok a.
#[export] Instance result_bind : MBind result := fun A B k r =>
  match r with
  | Ok a => k a
  | Raise e => Raise e
  end.
#[export] Instance result_fmap : FMap result := fun A B f r =>
  match r with
  | Ok a => Ok (f a)
  | Raise e => Raise e
  end.

Definition returns {A : Type} (r : result A) : Prop := exists a, r = Ok a.

(** ** Calendar: day numbers and the proleptic Gregorian calendar *)

Module Calendar.

(** Days since 1970-01-01 of the civil date [y]-[m]-[d]. *)
Definition days_from_civil (y m d : Z) : Z :=
  let y' := if m <=? 2 then y - 1 else y in
  let era := y' / 400 in
  let yoe := y' - era * 400 in
  let mp := if 2 <? m then m - 3 else m + 9 in
  let doy := (153 * mp + 2) / 5 + d - 1 in
  let doe := yoe * 365 + yoe / 4 - yoe / 100 + doy in
  era * 146097 + doe - 719468.

(** Day of era: the position of day [z] in its 400-year cycle, which
    starts on a 1 March. *)
Definition doe (z : Z) : Z := (z + 719468) mod 146097.
Definition era (z : Z) : Z := (z + 719468) / 146097.

Definition yoe_of_doe (e : Z) : Z :=
  (e - e / 1460 + e / 36524 - e / 146096) / 365.
Definition doy_of_doe (e : Z) : Z :=
  let yoe := yoe_of_doe e in e - (365 * yoe + yoe / 4 - yoe / 100).
Definition month_of_doe (e : Z) : Z :=
  let mp := (5 * doy_of_doe e + 2) / 153 in
  if mp <? 10 then mp + 3 else mp - 9.
Definition day_of_doe (e : Z) : Z :=
  let doy := doy_of_doe e in
  let mp := (5 * doy + 2) / 153 in
  doy - (153 * mp + 2) / 5 + 1.

(** [Series.dt.month], [Series.dt.day] and [Series.dt.year]. *)
Definition month (z : Z) : Z := month_of_doe (doe z).
Definition day (z : Z) : Z := day_of_doe (doe z).
Definition year (z : Z) : Z :=
  yoe_of_doe (doe z) + era z * 400 + (if month z <=? 2 then 1 else 0).

Definition civil (z : Z) : Z * Z * Z := (year z, month z, day z).

End Calendar.

(** ** The table and the pandas operations the run uses *)

(** One record of the CSV file, after [pd.to_datetime] of its [Date]. *)
Record row : Type := mk_row {
  Date : Z;
  State : string;
  Residential_Consumption_kWh : Qc
}.

(** A float result that may be not-a-number. *)
Inductive pyfloat : Type :=
  | Fin (q : Qc)
  | NaN.

(** [a > b] on floats: false as soon as one side is [NaN]. *)
Definition float_gt (a b : pyfloat) : bool :=
  match a, b with
  | Fin x, Fin y => bool_decide (y < x)%Qc
  | _, _ => false
  end.

Module pd.

(** [Series.sum()]: 0 for the empty column.  Exact: the rounding and the
    overflow of a sum of doubles are not modelled. *)
Definition sum (l : list Qc) : Qc := foldr Qcplus 0%Qc l.

(** [Series.mean()]: the sum over the count, and [NaN] when there is
    nothing to count.  Exact, as [sum] is. *)
Definition mean (l : list Qc) : pyfloat :=
  match l with
  | [] => NaN
  | _ :: _ => Fin (sum l / Q2Qc (inject_Z (Z.of_nat (length l))))%Qc
  end.

(** [Series.unique()]: the distinct values, in order of first appearance. *)
Fixpoint unique_from {A : Type} `{EqDecision A} (seen l : list A) : list A :=
  match l with
  | [] => []
  | x :: l' =>
      if bool_decide (x ∈ seen) then unique_from seen l'
      else x :: unique_from (x :: seen) l'
  end.
Definition unique {A : Type} `{EqDecision A} (l : list A) : list A :=
  unique_from [] l.

(** [Series.sort_values()] on dates: ascending, duplicates kept. *)
Fixpoint insert_sorted (x : Z) (l : list Z) : list Z :=
  match l with
  | [] => [x]
  | y :: l' => if x <=? y then x :: y :: l' else y :: insert_sorted x l'
  end.
Definition sort_values (l : list Z) : list Z := foldr insert_sorted [] l.

(** [Series.max()] on dates (of a non-empty column). *)
Definition max (l : list Z) : Z :=
  match l with
  | [] => 0
  | x :: l' => foldr Z.max x l'
  end.

End pd.

(** ** Prophet, as the run observes it *)

Module Prophet.

(** One row of the frame returned by [predict]: only the two columns the
    run reads. *)
Record forecast_row : Type := mk_forecast_row {
  ds : Z;
  yhat : Qc
}.

(** A fitted model: the training frame (columns [ds], [y]) and the sorted
    distinct training dates that [fit] stores in [history_dates]. *)
Record fitted : Type := mk_fitted {
  history : list (Z * Qc);
  history_dates : list Z
}.

(** The error of [fit] on a frame that is too short. *)
Definition too_few_rows : exn :=
  ValueError "Dataframe has less than 2 non-NaN rows.".

(** The number of distinct dates of a frame.  A frame whose rows all share
    one date has a time scale of zero, on which the library divides. *)
Definition distinct_dates (ts : list (Z * Qc)) : nat :=
  length (pd.unique (map fst ts)).
Definition single_date (ts : list (Z * Qc)) : bool :=
  (distinct_dates ts <? 2)%nat.

(** [history["y"].min() == history["y"].max()]: the library fits such a
    frame without running the optimiser. *)
Definition constant_y (ts : list (Z * Qc)) : bool :=
  match ts with
  | [] => true
  | p :: rest => forallb (fun q => bool_decide (q.2 = p.2)) rest
  end.

(** The errors on a frame with a time scale of zero: the optimiser fails in
    [fit]; a constant frame, fitted without it, fails in [predict]. *)
Definition optimization_failed : exn :=
  RuntimeError "Error during optimization".
Definition broadcast_failed : exn :=
  ValueError "operands could not be broadcast together".

(** [Prophet().fit(ts)].  The library refuses a frame with fewer than two
    rows with a [ValueError], and the optimiser fails with a
    [RuntimeError] on a frame of one date whose values differ; it has no
    other minimum. *)
Definition fit (ts : list (Z * Qc)) : result fitted :=
  if (length ts <? 2)%nat
  then Raise too_few_rows
  else if single_date ts && negb (constant_y ts)
  then Raise optimization_failed
  else Ok {| history := ts;
             history_dates := pd.sort_values (pd.unique (map fst ts)) |}.

(** [pd.date_range(start, periods=n, freq='D')]. *)
Definition date_range (start : Z) (n : nat) : list Z :=
  map (fun k => start + k) (seqZ 0 (Z.of_nat n)).

(** [model.make_future_dataframe(periods)], with the library's default
    [include_history=True]: the training dates followed by the [periods]
    days after the last one. *)
Definition make_future_dataframe (m : fitted) (periods : nat) : list Z :=
  let last_date := pd.max (history_dates m) in
  let dates := date_range last_date (periods + 1) in
  let dates := List.filter (fun d => last_date <? d) dates in
  let dates := take periods dates in
  history_dates m ++ dates.

Section Predict.

(** The point forecast of the model fitted on a training frame, at a
    date. *)
Variable yhat_model : list (Z * Qc) -> Z -> Qc.

(** [model.predict(future)]: one row per row of [future], by ascending
    date; a [ValueError] for a model fitted on a frame of one date. *)
Definition predict (m : fitted) (future : list Z)
  : result (list forecast_row) :=
  if single_date (history m)
  then Raise broadcast_failed
  else Ok (map (fun d => {| ds := d; yhat := yhat_model (history m) d |})
               (pd.sort_values future)).

End Predict.

End Prophet.

(** ** scikit-learn's IsolationForest, as the run observes it *)

Module IsolationForest.

Record params : Type := mk_params {
  contamination : Qc;
  random_state : Z
}.

(** The error of input validation on a sample matrix without rows. *)
Definition no_samples : exn :=
  ValueError "Found array with 0 sample(s) (shape=(0, 1)) while a minimum of 1 is required by IsolationForest.".

Section Detector.

(** [decision_function] of the forest built from [params] and fitted on a
    sample matrix, at one sample: the outlier score minus the offset that
    the contamination rate fixes. *)
Variable decision_function : params -> list (list Qc) -> list Qc -> Qc.

(** [model.fit_predict(X)].  Input validation refuses a matrix without
    rows with a [ValueError]; otherwise every row gets the integer -1
    (outlier, negative decision function) or 1 (inlier). *)
Definition fit_predict (p : params) (X : list (list Qc)) : result (list Z) :=
  match X with
  | [] => Raise no_samples
  | _ :: _ =>
      Ok (map (fun x => if bool_decide (decision_function p X x < 0)%Qc
                        then -1 else 1) X)
  end.

End Detector.

End IsolationForest.

(** ** The script *)

(** [int // float]: the floor of the quotient, as a float. *)
Definition floordiv (a : Z) (b : Qc) : Qc :=
  Q2Qc (inject_Z (Qfloor (inject_Z a / b))).

(** Static data - households per state (estimated, based on
    population/4.5). *)
Definition households_per_state : gmap string Qc :=
  list_to_map [
    ("Uttar Pradesh", floordiv 250000000 (Q2Qc 4.5));
    ("Maharashtra", floordiv 125000000 (Q2Qc 4.5));
    ("Bihar", floordiv 130000000 (Q2Qc 4.5));
    ("West Bengal", floordiv 100000000 (Q2Qc 4.5));
    ("Madhya Pradesh", floordiv 85000000 (Q2Qc 4.5));
    ("Tamil Nadu", floordiv 80000000 (Q2Qc 4.5));
    ("Rajasthan", floordiv 80000000 (Q2Qc 4.5));
    ("Karnataka", floordiv 70000000 (Q2Qc 4.5));
    ("Gujarat", floordiv 70000000 (Q2Qc 4.5));
    ("Andhra Pradesh", floordiv 55000000 (Q2Qc 4.5))
  ].

(** What the user enters in the widgets of one run. *)
Record inputs : Type := mk_inputs {
  year : Z;
  month : Z;
  states_selected : list string;
  tariff : Qc;
  email_id : string;
  threshold_kwh : Qc;
  send_report : bool
}.

(** The choices the state multiselect offers: [df["State"].unique()]. *)
Definition options (df : list row) : list string :=
  pd.unique (map State df).

(** [df[(df["Year"] == year) & (df["Month"] == month)]]. *)
Definition df_filtered (df : list row) (y m : Z) : list row :=
  List.filter (fun r => (Calendar.year (Date r) =? y)
                        && (Calendar.month (Date r) =? m)) df.

(** [df_filtered[df_filtered["State"].isin(states_selected)]]. *)
Definition df_compare (dff : list row) (selected : list string) : list row :=
  List.filter (fun r => bool_decide (State r ∈ selected)) dff.

(** [frame[frame["State"] == state]]. *)
Definition of_state (frame : list row) (state : string) : list row :=
  List.filter (fun r => bool_decide (State r = state)) frame.

(** *** Cost per household *)

Record summary_row : Type := mk_summary_row {
  summary_State : string;
  Total_Consumption_kWh : Qc;
  Households : Qc;
  Avg_Consumption_Per_Household_kWh : Qc;
  Estimated_Cost_Per_Household : Qc
}.

(** The loop over [states_selected] that fills [summary_data]; the
    dictionary subscript raises [KeyError] on a state without an entry.
    The total, the average and the cost are exact where the script
    rounds to doubles. *)
Fixpoint summary_data (dff : list row) (tariff : Qc) (states : list string)
  : result (list summary_row) :=
  match states with
  | [] => Ok []
  | state :: rest =>
      let state_data := of_state dff state in
      let total_consumption :=
        pd.sum (map Residential_Consumption_kWh state_data) in
      match households_per_state !! state with
      | None => Raise (KeyError state)
      | Some households =>
          let avg_consumption_per_household :=
            (total_consumption / households)%Qc in
          let cost_per_household :=
            (avg_consumption_per_household * tariff)%Qc in
          summary ← summary_data dff tariff rest;
          Ok ({| summary_State := state;
                 Total_Consumption_kWh := total_consumption;
                 Households := households;
                 Avg_Consumption_Per_Household_kWh :=
                   avg_consumption_per_household;
                 Estimated_Cost_Per_Household := cost_per_household |}
              :: summary)
      end
  end.

(** *** Load forecasting *)

(** The training frame of the forecast: the [Date] and consumption columns
    of every row of the whole table [df] for the state, renamed [ds], [y]. *)
Definition ts (df : list row) (state : string) : list (Z * Qc) :=
  map (fun r => (Date r, Residential_Consumption_kWh r)) (of_state df state).

(** [forecast[forecast["ds"].dt.month > 6]]. *)
Definition forecast_filtered (forecast : list Prophet.forecast_row)
  : list Prophet.forecast_row :=
  List.filter (fun r => 6 <? Calendar.month (Prophet.ds r)) forecast.

Section Forecast.

Variable yhat_model : list (Z * Qc) -> Z -> Qc.

(** Fit, extend by [periods] days, predict, keep the months after June. *)
Definition forecast_with (periods : nat) (ts : list (Z * Qc))
  : result (list Prophet.forecast_row) :=
  model ← Prophet.fit ts;
  let future := Prophet.make_future_dataframe model periods in
  forecast ← Prophet.predict yhat_model model future;
  Ok (forecast_filtered forecast).

(** The run asks for 184 days (6 months). *)
Definition forecast_run (df : list row) (state : string)
  : result (list Prophet.forecast_row) :=
  forecast_with 184 (ts df state).

End Forecast.

(** *** Forecast report and e-mail *)

Definition nl : string := String (Ascii.ascii_of_nat 10) EmptyString.

Record EmailMessage : Type := mk_EmailMessage {
  Subject : string;
  From_ : string;
  To : string;
  content : string;
  attachment : string
}.

Section Report.

(** Text renderings of dates and floats: in CSV cells, under the format
    [:.2f], and of the threshold inside the alert line. *)
Variable csv_date : Z -> string.
Variable csv_float : Qc -> string.
Variable format_2f : pyfloat -> string.
Variable format_float : Qc -> string.

(** [report_df.to_csv(index=False)] on the columns [Date], [Forecast_kWh]. *)
Definition to_csv (report_df : list (Z * Qc)) : string :=
  "Date,Forecast_kWh" +:+ nl +:+
  String.concat "" (map (fun c => csv_date c.1 +:+ "," +:+ csv_float c.2 +:+ nl)
                        report_df).

(** The two results computed from [forecast_filtered] when the report is
    requested: the CSV text and the mean of the forecast column. *)
Definition report_df (ff : list Prophet.forecast_row) : list (Z * Qc) :=
  map (fun r => (Prophet.ds r, Prophet.yhat r)) ff.
Definition report_csv (ff : list Prophet.forecast_row) : string :=
  to_csv (report_df ff).
Definition avg_forecast (ff : list Prophet.forecast_row) : pyfloat :=
  pd.mean (map snd (report_df ff)).

Definition greeting (state : string) (avg : pyfloat) : string :=
  "Hello," +:+ nl +:+ nl +:+
  "Please find attached the electricity forecast for " +:+ state +:+
  " for Jul–Dec 2025." +:+ nl +:+ nl +:+
  "Average Daily Forecast: " +:+ format_2f avg +:+ " kWh." +:+ nl.
Definition alert (threshold : Qc) : string :=
  "⚠️ Alert: Forecasted load exceeds your threshold of " +:+
  format_float threshold +:+ " kWh!" +:+ nl.
Definition regards : string :=
  nl +:+ "Regards," +:+ nl +:+ "Smart Meter Analyzer".

(** The text of the message: the alert line is appended under the
    comparison of the mean with the threshold. *)
Definition body (state : string) (avg : pyfloat) (threshold : Qc) : string :=
  let body := greeting state avg in
  let body := if float_gt avg (Fin threshold)
              then body +:+ alert threshold else body in
  body +:+ regards.

(** The message [msg] handed to the mail server. *)
Definition msg (state email_id : string) (threshold : Qc)
    (ff : list Prophet.forecast_row) : EmailMessage :=
  {| Subject := "Electricity Forecast Report - " +:+ state +:+ " (Jul-Dec 2025)";
     From_ := "youremail@example.com";
     To := email_id;
     content := body state (avg_forecast ff) threshold;
     attachment := report_csv ff |}.

End Report.

(** *** Anomaly detection *)

(** A cell of a frame column, with its NumPy type. *)
Inductive scalar : Type :=
  | np_int (z : Z)
  | np_bool (b : bool).

(** [frame[name] = values] for an array of values: one value per row, in
    row order; pandas refuses an array of another length. *)
Definition assign_column {A B : Type} (frame : list A) (values : list B)
  : result (list (A * B)) :=
  if (length values =? length frame)%nat
  then Ok (combine frame values)
  else Raise (ValueError "Length of values does not match length of index").

Section Anomaly.

Variable decision_function :
  IsolationForest.params -> list (list Qc) -> list Qc -> Qc.

(** The sample matrix [df_state[["Residential_Consumption_kWh"]]]: one
    row per record, a single column. *)
Definition features (df_state : list row) : list (list Qc) :=
  map (fun r => [Residential_Consumption_kWh r]) df_state.

(** The anomaly section: a new forest, fitted on the selected state's rows
    of [df_compare], whose labels become the column [Anomaly]. *)
Definition anomaly_run (dfc : list row) (state : string)
  : result (list (row * scalar)) :=
  let df_state := of_state dfc state in
  let model := {| IsolationForest.contamination := Q2Qc 0.03;
                  IsolationForest.random_state := 42 |} in
  labels ← IsolationForest.fit_predict decision_function model
             (features df_state);
  assign_column df_state (map np_int labels).

End Anomaly.

(** *** One run, top to bottom *)

Record forecast_section : Type := mk_forecast_section {
  forecast_chart : list Prophet.forecast_row;
  sent : option EmailMessage
}.

Inductive outcome : Type :=
  | Stopped
  | Completed (summary : list summary_row)
              (forecast : option forecast_section)
              (anomalies : option (list (row * scalar))).

Section Run.

Variable yhat_model : list (Z * Qc) -> Z -> Qc.
Variable decision_function :
  IsolationForest.params -> list (list Qc) -> list Qc -> Qc.
Variable csv_date : Z -> string.
Variable csv_float : Qc -> string.
Variable format_2f : pyfloat -> string.
Variable format_float : Qc -> string.

Definition run (inp : inputs) (df : list row) : result outcome :=
  let dff := df_filtered df (year inp) (month inp) in
  match dff with
  | [] => Ok Stopped
  | _ :: _ =>
      let dfc := df_compare dff (states_selected inp) in
      summary ← summary_data dff (tariff inp) (states_selected inp);
      forecast ←
        match states_selected inp with
        | [state] =>
            ff ← forecast_run yhat_model df state;
            Ok (Some {| forecast_chart := ff;
                        sent := if send_report inp
                                then Some (msg csv_date csv_float format_2f
                                             format_float state (email_id inp)
                                             (threshold_kwh inp) ff)
                                else None |})
        | _ => Ok None
        end;
      anomalies ←
        match states_selected inp with
        | [state] => Some <$> anomaly_run decision_function dfc state
        | _ => Ok None
        end;
      Ok (Completed summary forecast anomalies)
  end.

End Run.

(** ** Vocabulary of the statements *)

(** The [n] days that follow day [d]. *)
Definition days_after (d : Z) (n : nat) : list Z :=
  map (fun k => d + k) (seqZ 1 (Z.of_nat n)).

(** The row that [predict] returns for a date. *)
Definition predicted (yhat_model : list (Z * Qc) -> Z -> Qc)
    (ts : list (Z * Qc)) (d : Z) : Prophet.forecast_row :=
  {| Prophet.ds := d; Prophet.yhat := yhat_model ts d |}.

(** The dates of the frame passed to [predict]: the sorted distinct
    training dates, then the horizon. *)
Definition future_dates (ts : list (Z * Qc)) (n : nat) : list Z :=
  let h := pd.sort_values (pd.unique (map fst ts)) in
  h ++ days_after (pd.max h) n.

(** A forecast for horizon [H] that continues the history: its dates are
    exactly the [H] days that follow the last historical date. *)
Definition extends_history (ts : list (Z * Qc)) (H : nat)
    (ff : list Prophet.forecast_row) : Prop :=
  map Prophet.ds ff = days_after (pd.max (map fst ts)) H.

(** Day of era of the 30 June in year [y] of the era, and the check that
    the 184 days after it are 1 July to 31 December. *)
Definition jun30_doe (y : Z) : Z := 365 * y + y / 4 - y / 100 + 121.

Definition jul_dec_check (y : Z) : bool :=
  let e := jun30_doe y in
  (e + 184 <? 146097)
  && forallb (fun k => 6 <? Calendar.month_of_doe (e + k)) (seqZ 1 184)
  && (Calendar.month_of_doe (e + 1) =? 7) && (Calendar.day_of_doe (e + 1) =? 1)
  && (Calendar.month_of_doe (e + 184) =? 12)
  && (Calendar.day_of_doe (e + 184) =? 31).

(** The label that the run's forest gives to record [r] of the window
    [df_state]: contamination 0.03, seed 42, the reading as the only
    feature. *)
Definition anomaly_label
    (decision_function :
       IsolationForest.params -> list (list Qc) -> list Qc -> Qc)
    (df_state : list row) (r : row) : Z :=
  if bool_decide
       (decision_function
          {| IsolationForest.contamination := Q2Qc 0.03;
             IsolationForest.random_state := 42 |}
          (features df_state) [Residential_Consumption_kWh r] < 0)%Qc
  then -1 else 1.

(** A cell that holds a boolean. *)
Definition is_boolean (c : scalar) : Prop :=
  match c with
  | np_bool _ => True
  | np_int _ => False
  end.

(** ** Sample data for closed examples *)

(** Consecutive daily records of one state from day [start]. *)
Definition daily (state : string) (start : Z) (readings : list Qc) : list row :=
  imap (fun i v => mk_row (start + Z.of_nat i) state v) readings.

(** [n] readings 300, 301, ... *)
Definition readings (n : nat) : list Qc :=
  map (fun k => Q2Qc (inject_Z (300 + k))) (seqZ 0 (Z.of_nat n)).

(** 1 to 14 January 2025, 25 December 2024 to 7 January 2025, and
    1 January to 30 June 2025, for Bihar. *)
Definition bihar_jan_1_14 : list row := daily "Bihar" 20089 (readings 14).
Definition bihar_dec_jan : list row := daily "Bihar" 20082 (readings 14).
Definition bihar_jan_jun : list row := daily "Bihar" 20089 (readings 181).

(** Stand-ins for the fitted numbers: a forecast that repeats the mean of
    the training values, and a decision function that is negative above
    400 kWh. *)
Definition mean_yhat (ts : list (Z * Qc)) (d : Z) : Qc :=
  match pd.mean (map snd ts) with
  | Fin q => q
  | NaN => 0%Qc
  end.
Definition above_400 (p : IsolationForest.params) (X : list (list Qc))
    (x : list Qc) : Qc :=
  (Q2Qc 400 - hd 0%Qc x)%Qc.

(** A three-day window with one reading above 400 kWh. *)
Definition bihar_spike : list row :=
  daily "Bihar" 20089 [Q2Qc 310; Q2Qc 450; Q2Qc 305].

(** A table in which Bihar has records in February 2025 only and Gujarat in
    January 2025 only, and a run that analyses January for Bihar. *)
Definition bihar_feb_gujarat_jan : list row :=
  daily "Bihar" 20120 (readings 14) ++ daily "Gujarat" 20089 (readings 14).
Definition january_bihar : inputs :=
  {| year := 2025; month := 1; states_selected := ["Bihar"];
     tariff := Q2Qc 5.88; email_id := ""; threshold_kwh := Q2Qc 400;
     send_report := false |}.

(** A table with a state outside the household table, and a run that
    selects it. *)
Definition kerala_jan : list row := daily "Kerala" 20089 (readings 14).
Definition january_kerala : inputs :=
  {| year := 2025; month := 1; states_selected := ["Kerala"];
     tariff := Q2Qc 5.88; email_id := ""; threshold_kwh := Q2Qc 400;
     send_report := false |}.

(** A text rendering for closed examples: every value as the empty text. *)
Definition no_text {A : Type} (x : A) : string := "".

(** ** Further vocabulary *)

(** The default of the state selection,
    [[df_filtered["State"].iloc[0]]]: the state of the first record of the
    month; [iloc[0]] has no value on an empty frame. *)
Definition default_selection (dff : list row) : option (list string) :=
  match dff with
  | r :: _ => Some [State r]
  | [] => None
  end.

(** Occurrences of a character in a text. *)
Fixpoint count_char (c : Ascii.ascii) (s : string) : nat :=
  match s with
  | EmptyString => 0
  | String a s' => (if Ascii.eqb a c then 1 else 0) + count_char c s'
  end.

(** First day of year [y] of the era, counted from its 1 March, and the
    check that its days 122 and 305, the 1 July and the 31 December, have
    a month after June. *)
Definition year_start (y : Z) : Z := 365 * y + y / 4 - y / 100.

Definition jul_1_dec_31_check (y : Z) : bool :=
  (6 <? Calendar.month_of_doe (year_start y + 122))
  && (6 <? Calendar.month_of_doe (year_start y + 305)).

(** Runs on the January to June table of Bihar: the report requested, and
    two states selected on a table that has both. *)
Definition january_bihar_report : inputs :=
  {| year := 2025; month := 1; states_selected := ["Bihar"];
     tariff := Q2Qc 5.88; email_id := "user@example.com";
     threshold_kwh := Q2Qc 400; send_report := true |}.
Definition bihar_gujarat_jan : list row :=
  daily "Bihar" 20089 (readings 14) ++ daily "Gujarat" 20089 (readings 14).
Definition january_both : inputs :=
  {| year := 2025; month := 1; states_selected := ["Bihar"; "Gujarat"];
     tariff := Q2Qc 5.88; email_id := ""; threshold_kwh := Q2Qc 400;
     send_report := false |}.

(** * Properties *)

(** ** Calendar anchors *)

Example civil_epoch : Calendar.civil 0 = (1970, 1, 1).
Proof. reflexivity. Qed.

Example civil_2025_06_30 :
  Calendar.days_from_civil 2025 6 30 = 20269
  /\ Calendar.civil 20269 = (2025, 6, 30).
Proof. split; reflexivity. Qed.

Example civil_2025_12_31 :
  Calendar.days_from_civil 2025 12 31 = 20453
  /\ Calendar.civil 20453 = (2025, 12, 31).
Proof. split; reflexivity. Qed.

Example civil_leap_day :
  Calendar.civil (Calendar.days_from_civil 2024 2 29) = (2024, 2, 29).
Proof. reflexivity. Qed.

(** Day numbers and civil dates agree on every day of 2024 to 2026. *)
Lemma civil_roundtrip_2024_2026 :
  forallb (fun z => let '(y, m, d) := Calendar.civil z in
                    Calendar.days_from_civil y m d =? z)
          (seqZ 19723 1096) = true.
Proof. vm_compute. reflexivity. Qed.

(** ** Facts about the pandas operations *)

Section UniqueFacts.
Context {A : Type} `{EqDecision A}.

Lemma elem_of_unique_from (seen l : list A) x :
  x ∈ pd.unique_from seen l ↔ x ∈ l ∧ x ∉ seen.
Proof.
  revert seen. induction l as [|y l IH]; intros seen; simpl.
  - set_solver.
  - case_bool_decide as Hy.
    + rewrite IH. set_solver.
    + rewrite elem_of_cons, IH. destruct (decide (x = y)); set_solver.
Qed.

Lemma NoDup_unique_from (seen l : list A) : NoDup (pd.unique_from seen l).
Proof.
  revert seen. induction l as [|y l IH]; intros seen; simpl.
  - constructor.
  - case_bool_decide; [apply IH|].
    constructor; [|apply IH].
    rewrite elem_of_unique_from. set_solver.
Qed.

Lemma elem_of_unique (l : list A) x : x ∈ pd.unique l ↔ x ∈ l.
Proof. unfold pd.unique. rewrite elem_of_unique_from. set_solver. Qed.

Lemma NoDup_unique (l : list A) : NoDup (pd.unique l).
Proof. apply NoDup_unique_from. Qed.
End UniqueFacts.

Lemma elem_of_insert_sorted x y l : x ∈ pd.insert_sorted y l ↔ x = y ∨ x ∈ l.
Proof.
  induction l as [|z l IH]; simpl.
  - set_solver.
  - destruct (y <=? z); [set_solver|]. rewrite elem_of_cons, IH. set_solver.
Qed.

Lemma elem_of_sort_values x l : x ∈ pd.sort_values l ↔ x ∈ l.
Proof.
  induction l as [|z l IH]; simpl; [done|].
  rewrite elem_of_insert_sorted, IH. set_solver.
Qed.

Lemma insert_sorted_increasing x l :
  x ∉ l → StronglySorted Z.lt l → StronglySorted Z.lt (pd.insert_sorted x l).
Proof.
  intros Hx Hs. induction Hs as [|y l Hs IH Hall]; simpl.
  - repeat constructor.
  - destruct (Z.leb_spec x y) as [Hle|Hgt].
    + assert (x < y) by (apply not_elem_of_cons in Hx; lia).
      constructor; [by constructor|].
      constructor; [done|]. eapply Forall_impl; [exact Hall|]. simpl; lia.
    + constructor.
      * apply IH. set_solver.
      * apply Forall_forall. intros z Hz. apply elem_of_insert_sorted in Hz as [->|Hz]; [lia|].
        rewrite Forall_forall in Hall. by apply Hall.
Qed.

Lemma sort_values_increasing l : NoDup l → StronglySorted Z.lt (pd.sort_values l).
Proof.
  induction 1 as [|x l Hx Hnd IH]; simpl; [constructor|].
  apply insert_sorted_increasing; [|done]. by rewrite elem_of_sort_values.
Qed.

Lemma sort_values_sorted l : StronglySorted Z.lt l → pd.sort_values l = l.
Proof.
  induction 1 as [|x l Hs IH Hall]; simpl; [done|].
  rewrite IH. destruct l as [|y l]; simpl; [done|].
  apply Forall_cons in Hall as [Hxy _].
  destruct (Z.leb_spec x y); [done|lia].
Qed.

Lemma max_ge l x : x ∈ l → x <= pd.max l.
Proof.
  destruct l as [|a l]; [by intros ?%elem_of_nil|]. simpl.
  revert a. induction l as [|b l IH]; intros a; simpl.
  - intros ->%list_elem_of_singleton. lia.
  - intros Hx. apply elem_of_cons in Hx as [->|Hx].
    + specialize (IH a (list_elem_of_here _ _)). lia.
    + apply elem_of_cons in Hx as [->|Hx]; [lia|].
      assert (x ∈ a :: l) as Hx' by set_solver.
      specialize (IH a Hx'). lia.
Qed.

Lemma max_elem_of l : l ≠ [] → pd.max l ∈ l.
Proof.
  destruct l as [|a l]; [done|]. intros _. simpl.
  revert a. induction l as [|b l IH]; intros a; simpl; [set_solver|].
  specialize (IH a).
  destruct (Z.max_spec b (foldr Z.max a l)) as [[_ ->]|[_ ->]]; set_solver.
Qed.

(** ** Dates of the forecast frame *)

Lemma seqZ_increasing m (n : nat) : StronglySorted Z.lt (seqZ m (Z.of_nat n)).
Proof.
  induction n as [|n IH]; [constructor|].
  rewrite seqZ_S. apply StronglySorted_app_2; [|done|repeat constructor].
  intros x y Hx ->%list_elem_of_singleton. apply elem_of_seqZ in Hx. lia.
Qed.

Lemma days_after_increasing d n : StronglySorted Z.lt (days_after d n).
Proof.
  unfold days_after. apply (StronglySorted_fmap (fun k => d + k) Z.lt Z.lt).
  - intros; lia.
  - apply seqZ_increasing.
Qed.

Lemma elem_of_days_after d n x :
  x ∈ days_after d n ↔ d < x <= d + Z.of_nat n.
Proof.
  unfold days_after. rewrite list_elem_of_fmap. split.
  - intros (k & -> & Hk). apply elem_of_seqZ in Hk. lia.
  - intros Hx. exists (x - d). split; [lia|]. apply elem_of_seqZ. lia.
Qed.

Lemma length_days_after d n : length (days_after d n) = n.
Proof. unfold days_after. rewrite length_map, length_seqZ. lia. Qed.

Lemma make_future_dataframe_eq m n :
  Prophet.make_future_dataframe m n
  = Prophet.history_dates m ++ days_after (pd.max (Prophet.history_dates m)) n.
Proof.
  unfold Prophet.make_future_dataframe, Prophet.date_range, days_after.
  f_equal. set (last := pd.max _).
  rewrite seqZ_cons by lia. simpl.
  replace (last <? last + 0) with false by (symmetry; apply Z.ltb_ge; lia).
  replace (Z.pred (Z.of_nat (n + 1))) with (Z.of_nat n) by lia.
  rewrite (forallb_filter_id (fun d => last <? d)).
  - apply take_ge. rewrite length_map, length_seqZ. lia.
  - apply forallb_forall. intros d Hd.
    apply in_map_iff in Hd as (k & <- & Hk).
    apply list_elem_of_In, elem_of_seqZ in Hk. apply Z.ltb_lt. lia.
Qed.

Lemma history_dates_increasing (l : list Z) :
  StronglySorted Z.lt (pd.sort_values (pd.unique l)).
Proof. apply sort_values_increasing, NoDup_unique. Qed.

Lemma elem_of_history_dates (l : list Z) x :
  x ∈ pd.sort_values (pd.unique l) ↔ x ∈ l.
Proof. by rewrite elem_of_sort_values, elem_of_unique. Qed.

Lemma future_increasing (h : list Z) n :
  StronglySorted Z.lt h → StronglySorted Z.lt (h ++ days_after (pd.max h) n).
Proof.
  intros Hh. apply StronglySorted_app_2; [|done|apply days_after_increasing].
  intros x y Hx Hy. apply max_ge in Hx. apply elem_of_days_after in Hy. lia.
Qed.

Section ForecastFacts.
Variable yhat_model : list (Z * Qc) -> Z -> Qc.

Lemma unique_from_length {A : Type} `{EqDecision A} (seen l : list A) :
  (length (pd.unique_from seen l) ≤ length l)%nat.
Proof.
  revert seen. induction l as [|x l IH]; intros seen; simpl; [lia|].
  case_bool_decide; simpl; [specialize (IH seen)|specialize (IH (x :: seen))];
    lia.
Qed.

Lemma distinct_dates_length (ts : list (Z * Qc)) :
  (Prophet.distinct_dates ts ≤ length ts)%nat.
Proof.
  unfold Prophet.distinct_dates, pd.unique.
  pose proof (unique_from_length [] (map fst ts)) as Hl.
  by rewrite length_map in Hl.
Qed.

(** The forecast by cases: the two refusals of [fit], the failure of
    [predict], and the frame that is returned. *)
Lemma forecast_with_cases (n : nat) (ts : list (Z * Qc)) :
  forecast_with yhat_model n ts
  = if (length ts <? 2)%nat then Raise Prophet.too_few_rows
    else if Prophet.single_date ts
    then (if Prophet.constant_y ts then Raise Prophet.broadcast_failed
          else Raise Prophet.optimization_failed)
    else Ok (forecast_filtered
               (map (predicted yhat_model ts) (future_dates ts n))).
Proof.
  unfold forecast_with, Prophet.fit.
  destruct (length ts <? 2)%nat; [reflexivity|].
  destruct (Prophet.single_date ts) eqn:Hsingle.
  - destruct (Prophet.constant_y ts); cbn [andb negb mbind result_bind];
      [|reflexivity].
    unfold Prophet.predict. cbn [Prophet.history]. by rewrite Hsingle.
  - cbn [andb mbind result_bind]. unfold Prophet.predict.
    cbn [Prophet.history]. rewrite Hsingle. cbn [mbind result_bind].
    f_equal. f_equal. rewrite make_future_dataframe_eq.
    cbn [Prophet.history_dates].
    rewrite sort_values_sorted; [done|].
    apply future_increasing, history_dates_increasing.
Qed.

Lemma forecast_with_eq (n : nat) (ts : list (Z * Qc)) :
  (2 <= Prophet.distinct_dates ts)%nat →
  forecast_with yhat_model n ts
  = Ok (forecast_filtered (map (predicted yhat_model ts) (future_dates ts n))).
Proof.
  intros Hd. pose proof (distinct_dates_length ts) as Hl.
  rewrite forecast_with_cases. unfold Prophet.single_date.
  destruct (Nat.ltb_spec (length ts) 2) as [?|_]; [lia|].
  destruct (Nat.ltb_spec (Prophet.distinct_dates ts) 2) as [?|_]; [lia|done].
Qed.

Lemma forecast_with_short (n : nat) (ts : list (Z * Qc)) :
  (length ts < 2)%nat →
  forecast_with yhat_model n ts
  = Raise Prophet.too_few_rows.
Proof.
  intros Hlen. rewrite forecast_with_cases.
  destruct (Nat.ltb_spec (length ts) 2) as [_|?]; [done|lia].
Qed.

Lemma forecast_with_ok (n : nat) (ts : list (Z * Qc))
    (ff : list Prophet.forecast_row) :
  forecast_with yhat_model n ts = Ok ff →
  (2 <= Prophet.distinct_dates ts)%nat.
Proof.
  rewrite forecast_with_cases. unfold Prophet.single_date.
  destruct (length ts <? 2)%nat; [discriminate|].
  destruct (Nat.ltb_spec (Prophet.distinct_dates ts) 2) as [?|?]; [|done].
  destruct (Prophet.constant_y ts); discriminate.
Qed.

Lemma forecast_filtered_map (l : list Z) ts :
  forecast_filtered (map (predicted yhat_model ts) l)
  = map (predicted yhat_model ts) (List.filter (fun d => 6 <? Calendar.month d) l).
Proof.
  induction l as [|d l IH]; simpl; [done|].
  destruct (6 <? Calendar.month d); simpl; by rewrite IH.
Qed.

End ForecastFacts.

(** Two records on one date: with differing values the fit fails, with
    equal values the prediction does. *)
Example single_date_differing :
  forecast_with mean_yhat 184 [(20269, Q2Qc 300); (20269, Q2Qc 310)]
  = Raise Prophet.optimization_failed.
Proof. vm_compute. reflexivity. Qed.

Example single_date_constant :
  forecast_with mean_yhat 184 [(20269, Q2Qc 300); (20269, Q2Qc 300)]
  = Raise Prophet.broadcast_failed.
Proof. vm_compute. reflexivity. Qed.

(** ** The half-year after a 30 June *)

Lemma jul_dec_check_all : forallb jul_dec_check (seqZ 0 400) = true.
Proof. vm_compute. reflexivity. Qed.

Lemma doe_range z : 0 <= Calendar.doe z < 146097.
Proof. unfold Calendar.doe. apply Z.mod_pos_bound. lia. Qed.

Lemma doe_jun30 e :
  0 <= e < 146097 -> Calendar.month_of_doe e = 6 -> Calendar.day_of_doe e = 30 ->
  exists y, 0 <= y < 400 /\ e = jun30_doe y.
Proof.
  intros He Hm Hd. exists (Calendar.yoe_of_doe e).
  unfold Calendar.month_of_doe, Calendar.day_of_doe, Calendar.doy_of_doe,
    jun30_doe, Calendar.yoe_of_doe in *.
  match type of Hm with (if ?c <? 10 then _ else _) = _ =>
    destruct (Z.ltb_spec c 10) end;
  Z.div_mod_to_equations; lia.
Qed.

Lemma doe_add z k :
  0 <= k -> Calendar.doe z + k < 146097 -> Calendar.doe (z + k) = Calendar.doe z + k.
Proof.
  intros Hk Hlt. pose proof (doe_range z) as Hr. unfold Calendar.doe in *.
  symmetry. apply (Z.mod_unique_pos _ _ ((z + 719468) / 146097)); [lia|].
  pose proof (Z.div_mod (z + 719468) 146097). lia.
Qed.

Lemma jun30_check z :
  Calendar.month z = 6 -> Calendar.day z = 30 ->
  exists y, Calendar.doe z = jun30_doe y /\ jul_dec_check y = true.
Proof.
  intros Hm Hd. destruct (doe_jun30 (Calendar.doe z) (doe_range z) Hm Hd) as (y & Hy & He).
  exists y. split; [done|].
  pose proof jul_dec_check_all as Hall. rewrite forallb_forall in Hall.
  apply Hall, list_elem_of_In, elem_of_seqZ. lia.
Qed.

Lemma after_jun30 z k :
  Calendar.month z = 6 -> Calendar.day z = 30 -> 1 <= k <= 184 ->
  6 < Calendar.month (z + k).
Proof.
  intros Hm Hd Hk. destruct (jun30_check z Hm Hd) as (y & He & Hc).
  unfold jul_dec_check in Hc. rewrite !andb_true_iff in Hc.
  destruct Hc as [[[[[Hlt Hall] _] _] _] _].
  apply Z.ltb_lt in Hlt. rewrite forallb_forall in Hall.
  unfold Calendar.month. rewrite doe_add by lia. rewrite He.
  apply Z.ltb_lt, Hall, list_elem_of_In, elem_of_seqZ. lia.
Qed.

Lemma jun30_ends z :
  Calendar.month z = 6 -> Calendar.day z = 30 ->
  (Calendar.month (z + 1), Calendar.day (z + 1)) = (7, 1)
  /\ (Calendar.month (z + 184), Calendar.day (z + 184)) = (12, 31).
Proof.
  intros Hm Hd. destruct (jun30_check z Hm Hd) as (y & He & Hc).
  unfold jul_dec_check in Hc. rewrite !andb_true_iff in Hc.
  destruct Hc as [[[[[Hlt _] H1] H2] H3] H4].
  apply Z.ltb_lt in Hlt. apply Z.eqb_eq in H1, H2, H3, H4.
  unfold Calendar.month, Calendar.day. rewrite !doe_add by lia. rewrite He.
  by rewrite H1, H2, H3, H4.
Qed.

(** ** Load forecasting *)

Lemma max_history_dates (l : list Z) :
  l ≠ [] → pd.max (pd.sort_values (pd.unique l)) = pd.max l.
Proof.
  intros Hl.
  assert (pd.sort_values (pd.unique l) ≠ []) as Hh.
  { destruct l as [|x l]; [done|]. intros Hnil.
    assert (x ∈ pd.sort_values (pd.unique (x :: l))) as Hx
      by (apply elem_of_history_dates; left).
    rewrite Hnil in Hx. by apply elem_of_nil in Hx. }
  apply Z.le_antisymm.
  - apply max_ge, elem_of_history_dates, max_elem_of, Hh.
  - apply max_ge, elem_of_history_dates, max_elem_of, Hl.
Qed.

Lemma filter_none_in {A} (f : A → bool) l :
  (∀ x, x ∈ l → f x = false) → List.filter f l = [].
Proof.
  induction l as [|x l IH]; intros Hf; simpl; [done|].
  rewrite (Hf x) by left. apply IH. intros y Hy. apply Hf. by right.
Qed.

Lemma filter_all_in {A} (f : A → bool) l :
  (∀ x, x ∈ l → f x = true) → List.filter f l = l.
Proof.
  intros Hf. apply forallb_filter_id, forallb_forall.
  intros x Hx. by apply Hf, list_elem_of_In.
Qed.

Lemma StronglySorted_lt_filter (f : Z → bool) l :
  StronglySorted Z.lt l → StronglySorted Z.lt (List.filter f l).
Proof.
  induction 1 as [|x l Hs IH Hall]; simpl; [constructor|].
  destruct (f x); [|done]. constructor; [done|].
  apply Forall_forall. intros y Hy%list_elem_of_In%filter_In.
  rewrite Forall_forall in Hall. apply Hall, list_elem_of_In, Hy.
Qed.

Lemma StronglySorted_lt_NoDup (l : list Z) : StronglySorted Z.lt l → NoDup l.
Proof.
  induction 1 as [|x l Hs IH Hall]; constructor; [|done].
  intros Hx. rewrite Forall_forall in Hall. specialize (Hall x Hx). lia.
Qed.

Lemma month_range z : 1 ≤ Calendar.month z ≤ 12.
Proof.
  unfold Calendar.month, Calendar.month_of_doe, Calendar.doy_of_doe,
    Calendar.yoe_of_doe.
  pose proof (doe_range z) as Hr. revert Hr. generalize (Calendar.doe z).
  intros e He.
  match goal with |- context [if ?c <? 10 then _ else _] =>
    destruct (Z.ltb_spec c 10) end;
  Z.div_mod_to_equations; lia.
Qed.

(** C1 (as amended).  For every training frame with two distinct dates or
    more, the run's 184-day forecast is the part with month
    after June of the frame "sorted distinct training dates, then the 184
    days after the last one"; its dates are strictly increasing, without
    duplicates.  When moreover every training date lies in January to June
    and the last one is a 30 June, the forecast consists of exactly 184
    points on the 184 days that follow the last training date, all
    strictly later than it, from 1 July to 31 December. *)
Theorem forecast_jul_dec (yhat_model : list (Z * Qc) → Z → Qc)
    (ts : list (Z * Qc)) :
  (2 ≤ Prophet.distinct_dates ts)%nat →
  ∃ ff, forecast_with yhat_model 184 ts = Ok ff
    ∧ ff = map (predicted yhat_model ts)
             (List.filter (fun d => 6 <? Calendar.month d) (future_dates ts 184))
    ∧ StronglySorted Z.lt (map Prophet.ds ff)
    ∧ NoDup (map Prophet.ds ff)
    ∧ (let last := pd.max (map fst ts) in
       Forall (fun p => Calendar.month p.1 ≤ 6) ts →
       Calendar.month last = 6 → Calendar.day last = 30 →
       extends_history ts 184 ff
       ∧ length ff = 184%nat
       ∧ Forall (fun r => last < Prophet.ds r
                          ∧ 7 ≤ Calendar.month (Prophet.ds r) ≤ 12) ff
       ∧ (Calendar.month (last + 1), Calendar.day (last + 1)) = (7, 1)
       ∧ (Calendar.month (last + 184), Calendar.day (last + 184)) = (12, 31)).
Proof.
  intros Hdates. pose proof (distinct_dates_length ts) as Hlen.
  eexists. split; [by apply forecast_with_eq|].
  rewrite forecast_filtered_map. split; [done|].
  assert (map Prophet.ds
            (map (predicted yhat_model ts)
               (List.filter (fun d => 6 <? Calendar.month d) (future_dates ts 184)))
          = List.filter (fun d => 6 <? Calendar.month d) (future_dates ts 184)) as Hds.
  { rewrite map_map. simpl. apply map_id. }
  rewrite Hds.
  assert (StronglySorted Z.lt
            (List.filter (fun d => 6 <? Calendar.month d) (future_dates ts 184))) as Hs.
  { apply StronglySorted_lt_filter, future_increasing, history_dates_increasing. }
  split; [done|]. split; [by apply StronglySorted_lt_NoDup|].
  intros last Hmonths Hm Hd.
  assert (map fst ts ≠ []) as Hne by (destruct ts; [simpl in Hlen; lia|done]).
  assert (List.filter (fun d => 6 <? Calendar.month d) (future_dates ts 184)
          = days_after last 184) as Hf.
  { unfold future_dates. simpl. rewrite List.filter_app.
    rewrite max_history_dates by done. fold last.
    rewrite filter_none_in, filter_all_in; [done| |].
    - intros d Hd'%elem_of_days_after. apply Z.ltb_lt.
      replace d with (last + (d - last)) by lia. apply after_jun30; [done..|lia].
    - intros d Hd'%elem_of_history_dates%list_elem_of_fmap.
      destruct Hd' as (p & -> & Hp). rewrite Forall_forall in Hmonths.
      apply Z.ltb_ge, Hmonths, Hp. }
  unfold extends_history. rewrite Hds, Hf. fold last.
  split; [done|]. split; [by rewrite length_map, length_days_after|].
  split; [|by apply jun30_ends].
  rewrite Forall_forall. intros r (d & -> & Hd')%list_elem_of_fmap.
  apply elem_of_days_after in Hd'. simpl. split; [lia|].
  pose proof (after_jun30 last (d - last) Hm Hd ltac:(lia)) as Hlo.
  replace (last + (d - last)) with d in Hlo by lia.
  pose proof (month_range d). lia.
Qed.

Lemma forecast_jul_dec_witness :
  ∃ ff, forecast_run mean_yhat bihar_jan_jun "Bihar" = Ok ff
    ∧ extends_history (ts bihar_jan_jun "Bihar") 184 ff
    ∧ length ff = 184%nat.
Proof.
  assert (2 ≤ Prophet.distinct_dates (ts bihar_jan_jun "Bihar"))%nat as Hlen
    by (vm_compute; lia).
  destruct (forecast_jul_dec mean_yhat (ts bihar_jan_jun "Bihar") Hlen)
    as (ff & Hrun & _ & _ & _ & Hjun).
  exists ff. split; [exact Hrun|].
  destruct Hjun as (Hext & Hn & _).
  - refine (bool_decide_unpack _ _). vm_compute. exact I.
  - vm_compute. reflexivity.
  - vm_compute. reflexivity.
  - split; assumption.
Defined.

(** C1 (as stated) fails.  A history of 14 days in January 2025 gives 17
    forecast points, 1 to 17 July, not the 184 days after 14 January; a
    history from 25 December 2024 to 7 January 2025 gives back its own
    seven December dates, which are not after the last historical date. *)
Lemma forecast_not_extension :
  (∃ ff, (14 ≤ length (ts bihar_jan_1_14 "Bihar"))%nat
     ∧ forecast_run mean_yhat bihar_jan_1_14 "Bihar" = Ok ff
     ∧ map Prophet.ds ff = days_after 20269 17
     ∧ ¬ extends_history (ts bihar_jan_1_14 "Bihar") 184 ff)
  ∧ (∃ ff, (14 ≤ length (ts bihar_dec_jan "Bihar"))%nat
     ∧ forecast_run mean_yhat bihar_dec_jan "Bihar" = Ok ff
     ∧ map Prophet.ds ff = days_after 20081 7 ++ days_after 20269 10
     ∧ ¬ Forall (fun r => pd.max (map fst (ts bihar_dec_jan "Bihar"))
                          < Prophet.ds r) ff).
Proof.
  split.
  - eexists. split; [vm_compute; lia|]. split; [vm_compute; reflexivity|].
    split; [vm_compute; reflexivity|].
    unfold extends_history. vm_compute. discriminate.
  - eexists. split; [vm_compute; lia|]. split; [vm_compute; reflexivity|].
    split; [vm_compute; reflexivity|].
    intros Hall. apply Forall_cons in Hall as [Hlt _]. vm_compute in Hlt.
    discriminate.
Qed.

(** C2 (as amended).  A series is not refused for having fewer than 14
    observations: every series of fewer than 14 observations on at least
    two distinct dates is fitted, and the run goes on to its forecast
    instead of failing with [InsufficientData]. *)
Theorem forecast_minimum_history (yhat_model : list (Z * Qc) → Z → Qc)
    (df : list row) (state : string) :
  (length (ts df state) < 14)%nat →
  (2 ≤ Prophet.distinct_dates (ts df state))%nat →
  returns (Prophet.fit (ts df state))
  ∧ returns (forecast_run yhat_model df state).
Proof.
  intros _ Hdates. pose proof (distinct_dates_length (ts df state)) as Hlen.
  split.
  - unfold Prophet.fit, Prophet.single_date.
    destruct (Nat.ltb_spec (length (ts df state)) 2) as [?|_]; [lia|].
    destruct (Nat.ltb_spec (Prophet.distinct_dates (ts df state)) 2)
      as [?|_]; [lia|].
    by eexists.
  - unfold forecast_run. rewrite forecast_with_eq by done. by eexists.
Qed.

Lemma forecast_minimum_history_witness :
  returns (forecast_run mean_yhat (daily "Bihar" 20257 (readings 13)) "Bihar").
Proof.
  refine (proj2 (forecast_minimum_history mean_yhat
                   (daily "Bihar" 20257 (readings 13)) "Bihar" _ _));
    vm_compute; lia.
Defined.

(** C2 (as stated) fails.  A series of 13 observations, 18 to 30 June 2025,
    is fitted and forecast, with 184 forecast points and no error. *)
Lemma short_history_not_refused :
  length (ts (daily "Bihar" 20257 (readings 13)) "Bihar") = 13%nat
  ∧ returns (Prophet.fit (ts (daily "Bihar" 20257 (readings 13)) "Bihar"))
  ∧ (∃ ff, forecast_run mean_yhat (daily "Bihar" 20257 (readings 13)) "Bihar"
           = Ok ff ∧ length ff = 184%nat).
Proof.
  split; [reflexivity|].
  split; [eexists; vm_compute; reflexivity|].
  eexists. split; vm_compute; reflexivity.
Qed.

(** ** The training frame *)

Lemma elem_of_of_state (frame : list row) state r :
  r ∈ of_state frame state ↔ r ∈ frame ∧ State r = state.
Proof.
  unfold of_state. rewrite !list_elem_of_In, filter_In.
  by rewrite bool_decide_eq_true.
Qed.

Lemma of_state_absent (frame : list row) state :
  state ∉ map State frame → of_state frame state = [].
Proof.
  intros Hs. apply filter_none_in. intros r Hr.
  apply bool_decide_eq_false. intros <-. apply Hs, list_elem_of_fmap. eauto.
Qed.

Lemma sublist_bool_filter {A} (f : A → bool) l : sublist (List.filter f l) l.
Proof.
  induction l as [|x l IH]; simpl; [constructor|].
  destruct (f x); by constructor.
Qed.

Lemma of_state_df_filtered df y m state :
  of_state (df_filtered df y m) state
  = List.filter (fun r => (Calendar.year (Date r) =? y)
                          && (Calendar.month (Date r) =? m)) (of_state df state).
Proof.
  unfold of_state, df_filtered. induction df as [|r df IH]; simpl; [done|].
  destruct (_ && _) eqn:E1; destruct (bool_decide _) eqn:E2; simpl;
    rewrite ?E1, ?E2, IH; done.
Qed.

(** C4.  For every table and state identifier, the training frame holds the
    date and reading of every record of the state in the whole table, each
    once and in table order, and nothing from another state; it does not
    depend on the month under analysis, whose records for the state form a
    sub-sequence of it; for a state without records it is empty. *)
Theorem ts_whole_history (df : list row) (state : string) :
  (∀ r, r ∈ df → State r = state →
        (Date r, Residential_Consumption_kWh r) ∈ ts df state)
  ∧ (∀ p, p ∈ ts df state →
          ∃ r, r ∈ df ∧ State r = state
               ∧ p = (Date r, Residential_Consumption_kWh r))
  ∧ length (ts df state)
    = length (List.filter (fun r => bool_decide (State r = state)) df)
  ∧ sublist (ts df state)
      (map (fun r => (Date r, Residential_Consumption_kWh r)) df)
  ∧ (∀ y m, sublist (ts (df_filtered df y m) state) (ts df state))
  ∧ (state ∉ map State df → ts df state = []).
Proof.
  unfold ts. repeat split.
  - intros r Hr Hs. apply list_elem_of_fmap. exists r. split; [done|].
    by apply elem_of_of_state.
  - intros p (r & -> & Hr)%list_elem_of_fmap.
    apply elem_of_of_state in Hr as [Hr Hs]. eauto.
  - by rewrite length_map.
  - apply (fmap_sublist _), sublist_bool_filter.
  - intros y m. rewrite of_state_df_filtered.
    apply (fmap_sublist _), sublist_bool_filter.
  - intros Hs. by rewrite of_state_absent.
Qed.

(** The month under analysis has no record of Bihar, the training frame has
    all 14 of them; a state without records has an empty one. *)
Example ts_ignores_month :
  of_state (df_filtered bihar_feb_gujarat_jan 2025 1) "Bihar" = []
  ∧ length (ts bihar_feb_gujarat_jan "Bihar") = 14%nat
  ∧ ts bihar_feb_gujarat_jan "Kerala" = [].
Proof. repeat split; vm_compute; reflexivity. Qed.

(** ** Anomaly detection *)

Section AnomalyFacts.

Variable decision_function :
  IsolationForest.params -> list (list Qc) -> list Qc -> Qc.

Lemma combine_map_r {A B} (f : A → B) (l : list A) :
  combine l (map f l) = map (fun x => (x, f x)) l.
Proof. induction l as [|x l IH]; simpl; [done|]. by rewrite IH. Qed.

Lemma assign_column_map {A B} (f : A → B) (frame : list A) :
  assign_column frame (map f frame) = Ok (map (fun x => (x, f x)) frame).
Proof.
  unfold assign_column. rewrite length_map, Nat.eqb_refl.
  by rewrite combine_map_r.
Qed.

Lemma fit_predict_window (df_state : list row) :
  df_state ≠ [] →
  IsolationForest.fit_predict decision_function
    {| IsolationForest.contamination := Q2Qc 0.03;
       IsolationForest.random_state := 42 |} (features df_state)
  = Ok (map (anomaly_label decision_function df_state) df_state).
Proof.
  intros Hne. unfold IsolationForest.fit_predict.
  destruct (features df_state) as [|x X] eqn:E.
  - destruct df_state; [done|discriminate].
  - rewrite <- E. unfold features. by rewrite map_map.
Qed.

Lemma anomaly_run_window (dfc : list row) (state : string) :
  of_state dfc state ≠ [] →
  anomaly_run decision_function dfc state
  = Ok (map (fun r => (r, np_int (anomaly_label decision_function
                                     (of_state dfc state) r)))
            (of_state dfc state)).
Proof.
  intros Hne. unfold anomaly_run. rewrite fit_predict_window by done.
  cbn [mbind result_bind]. rewrite map_map. apply assign_column_map.
Qed.

Lemma anomaly_run_empty (dfc : list row) (state : string) :
  of_state dfc state = [] →
  anomaly_run decision_function dfc state
  = Raise IsolationForest.no_samples.
Proof. intros E. unfold anomaly_run. by rewrite E. Qed.

End AnomalyFacts.

(** C5.  For every non-empty window the detector returns the window's own
    records, unchanged and in order, each paired with one label, computed
    by a forest built for this call with contamination 0.03 and seed 42
    from the consumption reading as the only feature.  For the empty
    window nothing is returned: the fit raises [ValueError]; so it does
    for Bihar in January 2025 on a table where Bihar has records in
    February only. *)
Theorem anomaly_labels_parallel
    (decision_function :
       IsolationForest.params → list (list Qc) → list Qc → Qc)
    (dfc : list row) (state : string) :
  let df_state := of_state dfc state in
  (df_state ≠ [] →
     ∃ labelled, anomaly_run decision_function dfc state = Ok labelled
       ∧ map fst labelled = df_state
       ∧ length labelled = length df_state
       ∧ map snd labelled
         = map (fun r => np_int (anomaly_label decision_function df_state r))
               df_state)
  ∧ (df_state = [] →
     anomaly_run decision_function dfc state
     = Raise IsolationForest.no_samples)
  ∧ anomaly_run decision_function
      (df_compare (df_filtered bihar_feb_gujarat_jan 2025 1) ["Bihar"]) "Bihar"
    = Raise IsolationForest.no_samples.
Proof.
  intros df_state. split; [|split].
  - intros Hne. eexists. split; [by apply anomaly_run_window|].
    fold df_state. rewrite length_map, !map_map. simpl.
    by rewrite map_id.
  - apply anomaly_run_empty.
  - apply anomaly_run_empty. vm_compute. reflexivity.
Qed.

(** C6 (as amended).  Every label that the detector attaches is an integer,
    -1 or 1, never a boolean: -1 exactly when the decision function of the
    fitted forest is negative at the record's reading. *)
Theorem anomaly_flag_is_integer
    (decision_function :
       IsolationForest.params → list (list Qc) → list Qc → Qc)
    (dfc : list row) (state : string) (labelled : list (row * scalar)) :
  anomaly_run decision_function dfc state = Ok labelled →
  Forall (fun rl =>
            (rl.2 = np_int (-1) ∨ rl.2 = np_int 1)
            ∧ ¬ is_boolean rl.2
            ∧ (rl.2 = np_int (-1) ↔
               (decision_function
                  {| IsolationForest.contamination := Q2Qc 0.03;
                     IsolationForest.random_state := 42 |}
                  (features (of_state dfc state))
                  [Residential_Consumption_kWh rl.1] < 0)%Qc))
         labelled.
Proof.
  intros Hrun. destruct (decide (of_state dfc state = [])) as [E|Hne].
  - rewrite anomaly_run_empty in Hrun by done. discriminate.
  - rewrite anomaly_run_window in Hrun by done. injection Hrun as <-.
    apply Forall_forall. intros rl (r & -> & Hr)%list_elem_of_fmap. simpl.
    unfold anomaly_label, features. case_bool_decide as Hd.
    + split; [by left|]. split; [tauto|]. done.
    + split; [by right|]. split; [tauto|]. split; [discriminate|done].
Qed.

Lemma anomaly_flag_is_integer_witness :
  ∃ labelled, anomaly_run above_400 bihar_spike "Bihar" = Ok labelled
    ∧ map snd labelled = [np_int 1; np_int (-1); np_int 1]
    ∧ Forall (fun rl => rl.2 = np_int (-1) ∨ rl.2 = np_int 1) labelled.
Proof.
  eexists. split; [vm_compute; reflexivity|]. split; [reflexivity|].
  eapply Forall_impl.
  - apply (anomaly_flag_is_integer above_400 bihar_spike "Bihar").
    vm_compute. reflexivity.
  - simpl. tauto.
Defined.

(** C6 (as stated) fails.  On a three-day window the labels are the
    integers 1, -1, 1, so they are not all booleans. *)
Lemma anomaly_flag_not_boolean :
  ∃ labelled, anomaly_run above_400 bihar_spike "Bihar" = Ok labelled
    ∧ map snd labelled = [np_int 1; np_int (-1); np_int 1]
    ∧ ¬ Forall (fun rl => is_boolean rl.2) labelled.
Proof.
  eexists. split; [vm_compute; reflexivity|]. split; [reflexivity|].
  intros [H _]%Forall_cons. exact H.
Qed.

(** C7.  The detector returns a labelling exactly for the non-empty
    windows, however small.  In the run that analyses January 2025 for
    Bihar on a table where Bihar has records in February only, the state
    is on offer, the month has data, the cost summary and the forecast go
    through, and the empty window ends the run with [ValueError]. *)
Theorem anomaly_empty_window_raises :
  (∀ decision_function dfc state,
     returns (anomaly_run decision_function dfc state)
     ↔ of_state dfc state ≠ [])
  ∧ "Bihar" ∈ options bihar_feb_gujarat_jan
  ∧ length (df_filtered bihar_feb_gujarat_jan 2025 1) = 14%nat
  ∧ returns (summary_data (df_filtered bihar_feb_gujarat_jan 2025 1)
               (tariff january_bihar) ["Bihar"])
  ∧ returns (forecast_run mean_yhat bihar_feb_gujarat_jan "Bihar")
  ∧ run mean_yhat above_400 no_text no_text no_text no_text
        january_bihar bihar_feb_gujarat_jan
    = Raise IsolationForest.no_samples.
Proof.
  split.
  { intros dec dfc state. split.
    - intros [l Hl] E. rewrite anomaly_run_empty in Hl by done. discriminate.
    - intros Hne. rewrite anomaly_run_window by done. by eexists. }
  split; [vm_compute; by left|].
  split; [vm_compute; reflexivity|].
  split; [eexists; vm_compute; reflexivity|].
  split; [eexists; vm_compute; reflexivity|].
  vm_compute. reflexivity.
Qed.

(** ** The forecast report *)

Lemma count_succ (n : nat) :
  Q2Qc (inject_Z (Z.of_nat (S n))) = (Q2Qc (inject_Z (Z.of_nat n)) + 1)%Qc.
Proof.
  apply Qc_is_canon. simpl. rewrite !Qred_correct.
  rewrite Nat2Z.inj_succ. unfold Z.succ. rewrite inject_Z_plus. reflexivity.
Qed.

Lemma count_pos (n : nat) : (0 < Q2Qc (inject_Z (Z.of_nat (S n))))%Qc.
Proof.
  unfold Qclt. cbn [this Q2Qc]. rewrite !Qred_correct.
  unfold Qlt, inject_Z. cbn [Qnum Qden]. lia.
Qed.

Lemma sum_deviations (m : Qc) (l : list Qc) :
  pd.sum (map (fun x => x - m)%Qc l)
  = (pd.sum l - Q2Qc (inject_Z (Z.of_nat (length l))) * m)%Qc.
Proof.
  induction l as [|x l IH].
  - simpl. change (Q2Qc (inject_Z (Z.of_nat 0))) with 0%Qc. ring.
  - cbn [map length pd.sum foldr]. fold (pd.sum (map (fun x => x - m)%Qc l)).
    fold (pd.sum l). rewrite IH, count_succ. ring.
Qed.

Lemma mean_spec (l : list Qc) :
  l ≠ [] →
  ∃ m, pd.mean l = Fin m
    ∧ (m * Q2Qc (inject_Z (Z.of_nat (length l))))%Qc = pd.sum l
    ∧ pd.sum (map (fun x => x - m)%Qc l) = 0%Qc.
Proof.
  intros Hne. destruct l as [|x l]; [done|].
  assert (Q2Qc (inject_Z (Z.of_nat (length (x :: l)))) ≠ 0%Qc) as Hnz.
  { pose proof (count_pos (length l)) as Hpos. intros E.
    cbn [length] in E. rewrite E in Hpos. by apply Qclt_not_eq in Hpos. }
  unfold pd.mean. eexists. split; [reflexivity|].
  rewrite sum_deviations.
  generalize dependent (Q2Qc (inject_Z (Z.of_nat (length (x :: l))))).
  generalize (pd.sum (x :: l)). intros s n Hn. split; field; exact Hn.
Qed.

(** A mean of three forecast values. *)
Example avg_forecast_three :
  avg_forecast [Prophet.mk_forecast_row 20270 (Q2Qc 1);
                Prophet.mk_forecast_row 20271 (Q2Qc 2);
                Prophet.mk_forecast_row 20272 (Q2Qc 6)] = Fin (Q2Qc 3).
Proof. unfold avg_forecast, pd.mean. simpl. f_equal. by apply Qc_is_canon. Qed.

(** ** The alert of the e-mail *)

Lemma append_assoc (a b c : string) : (a +:+ b) +:+ c = a +:+ (b +:+ c).
Proof.
  induction a as [|x a IH]; [done|].
  unfold String.app in *. simpl. by rewrite IH.
Qed.

Lemma length_append (a b : string) :
  String.length (a +:+ b) = (String.length a + String.length b)%nat.
Proof.
  induction a as [|x a IH]; [done|].
  unfold String.app in *. simpl. by rewrite IH.
Qed.

Lemma float_gt_spec (a : pyfloat) (t : Qc) :
  float_gt a (Fin t) = true ↔ ∃ q, a = Fin q ∧ (t < q)%Qc.
Proof.
  destruct a as [q|]; simpl.
  - rewrite bool_decide_eq_true. split; [eauto|]. by intros (? & [= <-] & ?).
  - split; [done|]. by intros (? & ? & _).
Qed.

Section AlertFacts.

Variable format_2f : pyfloat -> string.
Variable format_float : Qc -> string.

Lemma alert_not_empty (threshold : Qc) :
  (0 < String.length (alert format_float threshold))%nat.
Proof. unfold alert. rewrite length_append. simpl. lia. Qed.

Lemma body_cases (state : string) (avg : pyfloat) (threshold : Qc) :
  let text := body format_2f format_float state avg threshold in
  let exceeds := ∃ q, avg = Fin q ∧ (threshold < q)%Qc in
  (text = greeting format_2f state avg +:+ alert format_float threshold
          +:+ regards ↔ exceeds)
  ∧ (text = greeting format_2f state avg +:+ regards ↔ ¬ exceeds).
Proof.
  intros text exceeds. subst text exceeds. unfold body.
  rewrite <- float_gt_spec.
  assert (greeting format_2f state avg +:+ alert format_float threshold +:+ regards
          ≠ greeting format_2f state avg +:+ regards) as Hne.
  { intros E%(inj (String.app _)). apply (f_equal String.length) in E.
    rewrite length_append in E. pose proof (alert_not_empty threshold). lia. }
  destruct (float_gt avg (Fin threshold)).
  - rewrite append_assoc. split; [done|]. split; [by intros ?%Hne|done].
  - split; [|done]. split; [|done]. intros E. by destruct Hne.
Qed.

Variable csv_date : Z -> string.
Variable csv_float : Qc -> string.

(** C9.  The alert line is part of the text of the composed message if and
    only if the mean of the forecast is strictly greater than the
    threshold: in that case the text is greeting, alert line, closing;
    otherwise, also when the mean equals the threshold or is not a
    number, it is greeting and closing only. *)
Theorem alert_iff_exceeds (state email_id : string) (threshold : Qc)
    (ff : list Prophet.forecast_row) :
  let message := msg csv_date csv_float format_2f format_float
                   state email_id threshold ff in
  let avg := avg_forecast ff in
  let exceeds := ∃ q, avg = Fin q ∧ (threshold < q)%Qc in
  (content message = greeting format_2f state avg
                 +:+ alert format_float threshold +:+ regards ↔ exceeds)
  ∧ (content message = greeting format_2f state avg +:+ regards ↔ ¬ exceeds).
Proof. apply body_cases. Qed.

End AlertFacts.

(** A mean of 450 against a threshold of 400 brings the alert; a mean equal
    to the threshold, or no mean at all, does not. *)
Example alert_at_450 :
  body no_text no_text "Bihar" (Fin (Q2Qc 450)) (Q2Qc 400)
  = greeting no_text "Bihar" (Fin (Q2Qc 450)) +:+ alert no_text (Q2Qc 400)
    +:+ regards.
Proof. vm_compute. reflexivity. Qed.

Example no_alert_at_threshold :
  body no_text no_text "Bihar" (Fin (Q2Qc 400)) (Q2Qc 400)
  = greeting no_text "Bihar" (Fin (Q2Qc 400)) +:+ regards.
Proof. vm_compute. reflexivity. Qed.

Example no_alert_without_mean :
  body no_text no_text "Bihar" NaN (Q2Qc 400)
  = greeting no_text "Bihar" NaN +:+ regards.
Proof. vm_compute. reflexivity. Qed.

(** ** The cost summary *)

Lemma households_states :
  dom households_per_state
  = list_to_set ["Uttar Pradesh"; "Maharashtra"; "Bihar"; "West Bengal";
                 "Madhya Pradesh"; "Tamil Nadu"; "Rajasthan"; "Karnataka";
                 "Gujarat"; "Andhra Pradesh"]
  ∧ size households_per_state = 10%nat.
Proof. split; [|vm_compute; reflexivity]. unfold households_per_state. 
  rewrite dom_list_to_map_L. reflexivity. Qed.

Lemma summary_data_KeyError (dff : list row) (tariff : Qc) (states : list string) :
  (∃ s, s ∈ states ∧ households_per_state !! s = None) →
  ∃ k, summary_data dff tariff states = Raise (KeyError k)
    ∧ k ∈ states ∧ households_per_state !! k = None.
Proof.
  intros (s & Hs & Hnone). induction states as [|state rest IH].
  - by apply elem_of_nil in Hs.
  - cbn [summary_data]. destruct (households_per_state !! state) eqn:E.
    + apply elem_of_cons in Hs as [->|Hs]; [congruence|].
      destruct (IH Hs) as (k & -> & Hk & Hnk). exists k.
      split; [done|]. split; [by right|done].
    + exists state. split; [done|]. split; [left|done].
Qed.

Lemma elem_of_options (df : list row) (s : string) :
  s ∈ options df ↔ ∃ r, r ∈ df ∧ State r = s.
Proof.
  unfold options. rewrite elem_of_unique, list_elem_of_fmap. naive_solver.
Qed.

(** C10.  Every state of the dataset is on offer in the state selection,
    whether or not the household table has it.  When the month under
    analysis has data and a selected state has no entry in the household
    table, which holds exactly ten states, the run ends with [KeyError] for
    the first such state. *)
Theorem run_KeyError
    (yhat_model : list (Z * Qc) → Z → Qc)
    (decision_function :
       IsolationForest.params → list (list Qc) → list Qc → Qc)
    (csv_date : Z → string) (csv_float : Qc → string)
    (format_2f : pyfloat → string) (format_float : Qc → string)
    (inp : inputs) (df : list row) (s : string) :
  df_filtered df (year inp) (month inp) ≠ [] →
  s ∈ states_selected inp →
  s ∉ dom households_per_state →
  (∀ s', s' ∈ options df ↔ s' ∈ map State df)
  ∧ size (dom households_per_state) = 10%nat
  ∧ ∃ k, run yhat_model decision_function csv_date csv_float format_2f
             format_float inp df = Raise (KeyError k)
       ∧ k ∈ states_selected inp
       ∧ k ∉ dom households_per_state.
Proof.
  intros Hdata Hs Hdom. split.
  { intros s'. unfold options. apply elem_of_unique. }
  split; [vm_compute; reflexivity|].
  apply not_elem_of_dom in Hdom.
  destruct (summary_data_KeyError (df_filtered df (year inp) (month inp))
              (tariff inp) (states_selected inp)) as (k & Hk & Hin & Hnone);
    [by eauto|].
  exists k. split; [|split; [done|by apply not_elem_of_dom]].
  unfold run. destruct (df_filtered df (year inp) (month inp)); [done|].
  by rewrite Hk.
Qed.

Lemma run_KeyError_witness :
  "Kerala" ∈ options kerala_jan
  ∧ run mean_yhat above_400 no_text no_text no_text no_text
        january_kerala kerala_jan = Raise (KeyError "Kerala").
Proof.
  assert (df_filtered kerala_jan (year january_kerala) (month january_kerala)
          ≠ []) as Hdata by (vm_compute; discriminate).
  assert ("Kerala" ∈ states_selected january_kerala) as Hsel
    by (vm_compute; left).
  assert ("Kerala" ∉ dom households_per_state) as Hdom.
  { apply not_elem_of_dom. vm_compute. reflexivity. }
  destruct (run_KeyError mean_yhat above_400 no_text no_text no_text no_text
              january_kerala kerala_jan "Kerala" Hdata Hsel Hdom)
    as (Hopt & _ & k & Hrun & Hk & _).
  split.
  - apply Hopt. vm_compute. left.
  - rewrite Hrun. f_equal. f_equal.
    apply list_elem_of_singleton in Hk. exact Hk.
Defined.

(** * Further properties *)

(** ** Every horizon reaches July *)


Lemma jul_1_dec_31_check_all : forallb jul_1_dec_31_check (seqZ 0 400) = true.
Proof. vm_compute. reflexivity. Qed.

Lemma doe_year e :
  0 <= e < 146097 ->
  0 <= Calendar.yoe_of_doe e < 400
  /\ 0 <= Calendar.doy_of_doe e <= 365
  /\ e = year_start (Calendar.yoe_of_doe e) + Calendar.doy_of_doe e.
Proof.
  intros He. unfold Calendar.doy_of_doe, Calendar.yoe_of_doe, year_start.
  Z.div_mod_to_equations. lia.
Qed.

Lemma year_start_step y : 0 <= y -> 365 <= year_start (y + 1) - year_start y <= 366.
Proof. intros Hy. unfold year_start. Z.div_mod_to_equations. lia. Qed.

Lemma doe_add_mod z k : Calendar.doe (z + k) = (Calendar.doe z + k) mod 146097.
Proof.
  unfold Calendar.doe. rewrite Zplus_mod_idemp_l. f_equal. lia.
Qed.

Lemma jul_1_dec_31 y :
  0 <= y < 400 ->
  6 < Calendar.month_of_doe (year_start y + 122)
  /\ 6 < Calendar.month_of_doe (year_start y + 305).
Proof.
  intros Hy. pose proof jul_1_dec_31_check_all as Hall.
  rewrite forallb_forall in Hall.
  assert (jul_1_dec_31_check y = true) as Hc
    by (apply Hall, list_elem_of_In, elem_of_seqZ; lia).
  unfold jul_1_dec_31_check in Hc. apply andb_true_iff in Hc as [H1 H2].
  by apply Z.ltb_lt in H1, H2.
Qed.

Lemma year_start_bound y : 0 <= y < 400 -> 0 <= year_start y <= 145731.
Proof. intros Hy. unfold year_start. Z.div_mod_to_equations. lia. Qed.

(** Whatever the day, one of the 184 days that follow it lies in July to
    December. *)
Lemma reaches_jul_dec z : exists k, 1 <= k <= 184 /\ 6 < Calendar.month (z + k).
Proof.
  pose proof (doe_range z) as He.
  destruct (doe_year _ He) as (Hy & Hd & Hed).
  set (y := Calendar.yoe_of_doe (Calendar.doe z)) in *.
  set (d := Calendar.doy_of_doe (Calendar.doe z)) in *.
  pose proof (year_start_bound y Hy) as Hys.
  unfold Calendar.month.
  destruct (Z_le_gt_dec d 121) as [H1|H1]; [|destruct (Z_le_gt_dec d 304) as [H2|H2]].
  - exists (122 - d). split; [lia|]. rewrite doe_add_mod.
    replace (Calendar.doe z + (122 - d)) with (year_start y + 122) by lia.
    rewrite Z.mod_small by lia. by apply jul_1_dec_31.
  - exists (305 - d). split; [lia|]. rewrite doe_add_mod.
    replace (Calendar.doe z + (305 - d)) with (year_start y + 305) by lia.
    rewrite Z.mod_small by lia. by apply jul_1_dec_31.
  - destruct (Z_lt_le_dec y 399) as [H3|H3].
    + pose proof (year_start_step y ltac:(lia)) as Hstep.
      pose proof (year_start_bound (y + 1) ltac:(lia)) as Hys'.
      exists (year_start (y + 1) + 122 - Calendar.doe z). split; [lia|].
      rewrite doe_add_mod.
      replace (Calendar.doe z + (year_start (y + 1) + 122 - Calendar.doe z))
        with (year_start (y + 1) + 122) by lia.
      rewrite Z.mod_small by lia. apply jul_1_dec_31. lia.
    + assert (y = 399) as Hy399 by lia.
      assert (year_start y = 145731) as Hs by (rewrite Hy399; reflexivity).
      exists (146097 + 122 - Calendar.doe z). split; [lia|].
      rewrite doe_add_mod.
      replace (Calendar.doe z + (146097 + 122 - Calendar.doe z))
        with (122 + 1 * 146097) by lia.
      rewrite Z.mod_add by lia. rewrite Z.mod_small by lia.
      apply (jul_1_dec_31 0). lia.
Qed.

(** ** The forecast of a run *)

Lemma elem_of_bool_filter {A} (f : A → bool) (l : list A) x :
  x ∈ List.filter f l ↔ x ∈ l ∧ f x = true.
Proof. by rewrite !list_elem_of_In, filter_In. Qed.

Lemma elem_of_future_dates (ts : list (Z * Qc)) (n : nat) d :
  ts ≠ [] →
  d ∈ future_dates ts n
  ↔ d ∈ map fst ts
    ∨ pd.max (map fst ts) < d <= pd.max (map fst ts) + Z.of_nat n.
Proof.
  intros Hne. unfold future_dates. cbn zeta.
  rewrite elem_of_app, elem_of_history_dates, elem_of_days_after.
  rewrite max_history_dates; [done|]. by destruct ts.
Qed.

Lemma forecast_with_dates (yhat_model : list (Z * Qc) → Z → Qc)
    (ts : list (Z * Qc)) :
  (2 ≤ Prophet.distinct_dates ts)%nat →
  ∃ ff, forecast_with yhat_model 184 ts = Ok ff
    ∧ map Prophet.ds ff
      = List.filter (fun d => 6 <? Calendar.month d) (future_dates ts 184).
Proof.
  intros Hlen. eexists. split; [by apply forecast_with_eq|].
  rewrite forecast_filtered_map, map_map. apply map_id.
Qed.

(** X1.  For a history with two distinct dates or more, the dates of the
    run's forecast are exactly the dates with a
    month after June among the historical dates and the 184 days after the
    last historical date.  When no historical date lies after June, the
    forecast is a sub-sequence of those 184 days: nothing of it overlaps
    the history, and it has at most 184 points. *)
Theorem forecast_dates_membership (yhat_model : list (Z * Qc) → Z → Qc)
    (ts : list (Z * Qc)) :
  (2 ≤ Prophet.distinct_dates ts)%nat →
  let last := pd.max (map fst ts) in
  ∃ ff, forecast_with yhat_model 184 ts = Ok ff
    ∧ (∀ d, d ∈ map Prophet.ds ff
            ↔ 6 < Calendar.month d
              ∧ (d ∈ map fst ts ∨ last < d <= last + 184))
    ∧ (Forall (fun p => Calendar.month p.1 ≤ 6) ts →
       sublist (map Prophet.ds ff) (days_after last 184)
       ∧ Forall (fun r => last < Prophet.ds r <= last + 184) ff
       ∧ (length ff ≤ 184)%nat).
Proof.
  intros Hdates last. pose proof (distinct_dates_length ts) as Hlen.
  assert (ts ≠ []) as Hne by (destruct ts; [simpl in Hlen; lia|done]).
  assert (map fst ts ≠ []) as Hne' by (destruct ts; [simpl in Hlen; lia|done]).
  destruct (forecast_with_dates yhat_model ts Hdates) as (ff & Hrun & Hds).
  exists ff. split; [exact Hrun|]. split.
  - intros d. rewrite Hds, elem_of_bool_filter, elem_of_future_dates by exact Hne.
    fold last. rewrite Z.ltb_lt. change (Z.of_nat 184) with 184. tauto.
  - intros Hmonths.
    assert (map Prophet.ds ff
            = List.filter (fun d => 6 <? Calendar.month d) (days_after last 184))
      as Hf.
    { rewrite Hds. unfold future_dates. cbn zeta. rewrite List.filter_app.
      rewrite max_history_dates by exact Hne'. fold last.
      rewrite filter_none_in; [done|].
      intros d Hd%elem_of_history_dates%list_elem_of_fmap.
      destruct Hd as (p & -> & Hp). rewrite Forall_forall in Hmonths.
      apply Z.ltb_ge, Hmonths, Hp. }
    assert (sublist (map Prophet.ds ff) (days_after last 184)) as Hsub
      by (rewrite Hf; apply sublist_bool_filter).
    split; [exact Hsub|]. split.
    + apply Forall_forall. intros r Hr.
      assert (Prophet.ds r ∈ days_after last 184) as Hd.
      { eapply elem_of_sublist; [|exact Hsub].
        apply list_elem_of_fmap. eauto. }
      apply elem_of_days_after in Hd. lia.
    + apply sublist_length in Hsub.
      by rewrite length_map, length_days_after in Hsub.
Qed.

Lemma forecast_dates_membership_witness :
  ∃ ff, forecast_run mean_yhat bihar_jan_1_14 "Bihar" = Ok ff
    ∧ Forall (fun r => pd.max (map fst (ts bihar_jan_1_14 "Bihar"))
                       < Prophet.ds r
                       <= pd.max (map fst (ts bihar_jan_1_14 "Bihar")) + 184)
             ff.
Proof.
  assert (2 ≤ Prophet.distinct_dates (ts bihar_jan_1_14 "Bihar"))%nat
    as Hlen by (vm_compute; lia).
  destruct (forecast_dates_membership mean_yhat (ts bihar_jan_1_14 "Bihar") Hlen)
    as (ff & Hrun & _ & Hjj).
  exists ff. split; [exact Hrun|].
  destruct Hjj as (_ & Hall & _); [|exact Hall].
  refine (bool_decide_unpack _ _). vm_compute. exact I.
Defined.

Lemma forecast_run_nonempty (yhat_model : list (Z * Qc) → Z → Qc)
    (df : list row) (state : string) (ff : list Prophet.forecast_row) :
  forecast_run yhat_model df state = Ok ff → ff ≠ [].
Proof.
  intros Hrun. unfold forecast_run in Hrun.
  pose proof (forecast_with_ok _ _ _ _ Hrun) as Hdates.
  pose proof (distinct_dates_length (ts df state)) as Hn.
  destruct (forecast_with_dates yhat_model (ts df state) Hdates)
    as (ff' & Hrun' & Hds).
  rewrite Hrun in Hrun'. injection Hrun' as <-.
  destruct (reaches_jul_dec (pd.max (map fst (ts df state)))) as (k & Hk & Hm).
  assert (pd.max (map fst (ts df state)) + k ∈ map Prophet.ds ff) as Hin.
  { rewrite Hds. apply elem_of_bool_filter. split; [|by apply Z.ltb_lt].
    apply elem_of_future_dates; [|right; lia].
    destruct (ts df state); [simpl in Hn; lia|done]. }
  intros ->. by apply elem_of_nil in Hin.
Qed.

Lemma avg_forecast_number (ff : list Prophet.forecast_row) :
  ff ≠ [] → ∃ q, avg_forecast ff = Fin q.
Proof.
  intros Hne. unfold avg_forecast, report_df. rewrite map_map. cbn [snd].
  destruct (mean_spec (map Prophet.yhat ff)) as (m & Hm & _); [by destruct ff|].
  eauto.
Qed.

(** X2.  Every forecast that the run computes has at least one point, so
    the mean reported for it is a number, never [NaN]. *)
Theorem forecast_never_empty (yhat_model : list (Z * Qc) → Z → Qc)
    (df : list row) (state : string) (ff : list Prophet.forecast_row) :
  forecast_run yhat_model df state = Ok ff →
  ff ≠ [] ∧ ∃ q, avg_forecast ff = Fin q.
Proof.
  intros Hrun. apply forecast_run_nonempty in Hrun.
  split; [done|]. by apply avg_forecast_number.
Qed.

Lemma forecast_never_empty_witness :
  ∃ ff, forecast_run mean_yhat bihar_dec_jan "Bihar" = Ok ff
    ∧ ff ≠ [] ∧ ∃ q, avg_forecast ff = Fin q.
Proof.
  eexists. split; [vm_compute; reflexivity|].
  apply (forecast_never_empty mean_yhat bihar_dec_jan "Bihar").
  vm_compute. reflexivity.
Defined.

(** ** The window of the month *)

Lemma of_state_df_compare (dff : list row) (selected : list string) (s : string) :
  s ∈ selected → of_state (df_compare dff selected) s = of_state dff s.
Proof.
  intros Hs. unfold of_state, df_compare.
  induction dff as [|r dff IH]; simpl; [done|].
  destruct (bool_decide (State r = s)) eqn:E.
  - apply bool_decide_eq_true in E.
    rewrite bool_decide_eq_true_2 by (by rewrite E). simpl.
    rewrite bool_decide_eq_true_2 by done. by rewrite IH.
  - destruct (bool_decide (State r ∈ selected)); simpl; rewrite ?E; exact IH.
Qed.

Lemma elem_of_df_filtered (df : list row) (y m : Z) (r : row) :
  r ∈ df_filtered df y m
  ↔ r ∈ df ∧ Calendar.year (Date r) = y ∧ Calendar.month (Date r) = m.
Proof.
  unfold df_filtered. rewrite elem_of_bool_filter, andb_true_iff, !Z.eqb_eq.
  tauto.
Qed.

(** X3.  For a selected state, the window of the anomaly detection is the
    frame from which the cost summary takes the state's total: the records
    of the table with that state, in the year and month under analysis,
    and no other record. *)
Theorem anomaly_window_is_month_of_state (df : list row) (y m : Z)
    (selected : list string) (s : string) :
  s ∈ selected →
  of_state (df_compare (df_filtered df y m) selected) s
  = of_state (df_filtered df y m) s
  ∧ ∀ r, r ∈ of_state (df_compare (df_filtered df y m) selected) s
         ↔ r ∈ df ∧ State r = s
           ∧ Calendar.year (Date r) = y ∧ Calendar.month (Date r) = m.
Proof.
  intros Hs. rewrite of_state_df_compare by done. split; [done|].
  intros r. rewrite elem_of_of_state, elem_of_df_filtered. tauto.
Qed.

Lemma anomaly_window_is_month_of_state_witness :
  length (of_state (df_compare (df_filtered bihar_gujarat_jan 2025 1)
                      ["Bihar"; "Gujarat"]) "Gujarat") = 14%nat.
Proof.
  assert ("Gujarat" ∈ ["Bihar"; "Gujarat"]) as Hs by (right; left).
  destruct (anomaly_window_is_month_of_state bihar_gujarat_jan 2025 1
              ["Bihar"; "Gujarat"] "Gujarat" Hs) as [-> _].
  vm_compute. reflexivity.
Defined.

(** ** The cost summary, when it succeeds *)

Lemma households_positive (s : string) (h : Qc) :
  households_per_state !! s = Some h → (0 < h)%Qc.
Proof.
  assert (map_Forall (fun _ h => (0 < h)%Qc) households_per_state) as Hall.
  { refine (bool_decide_unpack _ _). vm_compute. exact I. }
  intros Hs. exact (Hall s h Hs).
Qed.

(** ** One run *)

Section RunFacts.

Variable yhat_model : list (Z * Qc) -> Z -> Qc.
Variable decision_function :
  IsolationForest.params -> list (list Qc) -> list Qc -> Qc.
Variable csv_date : Z -> string.
Variable csv_float : Qc -> string.
Variable format_2f : pyfloat -> string.
Variable format_float : Qc -> string.

(** The forecast and anomaly sections of a run, as the run sequences
    them. *)
Lemma run_sections (inp : inputs) (df : list row) :
  df_filtered df (year inp) (month inp) ≠ [] →
  run yhat_model decision_function csv_date csv_float format_2f
    format_float inp df
  = (summary ← summary_data (df_filtered df (year inp) (month inp))
                 (tariff inp) (states_selected inp);
     forecast ←
       match states_selected inp with
       | [state] =>
           ff ← forecast_run yhat_model df state;
           Ok (Some {| forecast_chart := ff;
                       sent := if send_report inp
                               then Some (msg csv_date csv_float format_2f
                                            format_float state (email_id inp)
                                            (threshold_kwh inp) ff)
                               else None |})
       | _ => Ok None
       end;
     anomalies ←
       match states_selected inp with
       | [state] =>
           Some <$> anomaly_run decision_function
                      (df_compare (df_filtered df (year inp) (month inp))
                         (states_selected inp)) state
       | _ => Ok None
       end;
     Ok (Completed summary forecast anomalies)).
Proof.
  intros Hne. unfold run.
  destruct (df_filtered df (year inp) (month inp)); [done|reflexivity].
Qed.


Lemma summary_data_returns (dff : list row) (tariff : Qc) (states : list string) :
  (∀ s, s ∈ states → s ∈ dom households_per_state) →
  ∃ summary, summary_data dff tariff states = Ok summary
    ∧ map summary_State summary = states.
Proof.
  induction states as [|state rest IH]; intros Hdom; [by exists []|].
  destruct IH as (summary & Hsum & Hst); [intros s Hs; apply Hdom; by right|].
  assert (state ∈ dom households_per_state) as Hin by (apply Hdom; left).
  apply elem_of_dom in Hin as [h Hh].
  cbn [summary_data]. rewrite Hh, Hsum. cbn [mbind result_bind].
  eexists. split; [reflexivity|]. cbn. by rewrite Hst.
Qed.


Lemma summary_data_households (dff : list row) (tariff : Qc)
    (states : list string) (summary : list summary_row) :
  summary_data dff tariff states = Ok summary →
  Forall (fun r => households_per_state !! summary_State r
                   = Some (Households r)) summary.
Proof.
  revert summary. induction states as [|state rest IH]; intros summary Hsum.
  - injection Hsum as <-. constructor.
  - cbn [summary_data] in Hsum.
    destruct (households_per_state !! state) as [h|] eqn:Hh;
      [|discriminate Hsum].
    destruct (summary_data dff tariff rest) as [summary'|e];
      cbn [mbind result_bind] in Hsum; [|discriminate Hsum].
    injection Hsum as <-. constructor; [exact Hh|]. by apply IH.
Qed.

(** X4.  The cost loop succeeds exactly when every selected state has an
    entry in the household table.  It then returns one row per selected
    state, in selection order, and each row carries the household count
    that the table holds for its state, which is positive. *)
Theorem summary_rows (dff : list row) (tariff : Qc) (states : list string) :
  (returns (summary_data dff tariff states)
   ↔ ∀ s, s ∈ states → s ∈ dom households_per_state)
  ∧ ∀ summary, summary_data dff tariff states = Ok summary →
      map summary_State summary = states
      ∧ Forall (fun r => households_per_state !! summary_State r
                         = Some (Households r)
                         ∧ (0 < Households r)%Qc) summary.
Proof.
  split.
  - split.
    + intros [summary Hsum] s Hs.
      destruct (decide (s ∈ dom households_per_state)) as [?|Hnot]; [done|].
      apply not_elem_of_dom in Hnot.
      destruct (summary_data_KeyError dff tariff states) as (k & Hk & _);
        [by eauto|congruence].
    + intros Hdom.
      destruct (summary_data_returns dff tariff states Hdom) as (? & ? & _).
      by eexists.
  - intros summary Hsum. split.
    + destruct (decide (Forall (fun s => s ∈ dom households_per_state) states))
        as [Hall|Hex].
      * rewrite Forall_forall in Hall.
        destruct (summary_data_returns dff tariff states Hall)
          as (summary' & Hsum' & Hst).
        congruence.
      * apply not_Forall_Exists in Hex; [|apply _].
        apply Exists_exists in Hex as (s & Hs & Hnone).
        apply not_elem_of_dom in Hnone.
        destruct (summary_data_KeyError dff tariff states) as (k & Hk & _);
          [by eauto|congruence].
    + eapply Forall_impl; [by eapply summary_data_households|].
      intros r Hr. cbn beta in *. split; [exact Hr|].
      exact (households_positive _ _ Hr).
Qed.


Lemma anomaly_run_selected (dff : list row) (s : string) :
  (of_state dff s = []
   ∧ anomaly_run decision_function (df_compare dff [s]) s
     = Raise IsolationForest.no_samples)
  ∨ (of_state dff s ≠ []
     ∧ ∃ labelled,
         anomaly_run decision_function (df_compare dff [s]) s = Ok labelled
         ∧ map fst labelled = of_state dff s).
Proof.
  assert (of_state (df_compare dff [s]) s = of_state dff s) as Hw
    by (apply of_state_df_compare; left).
  destruct (decide (of_state dff s = [])) as [E|Hne].
  - left. split; [done|]. apply anomaly_run_empty. by rewrite Hw.
  - right. split; [done|]. rewrite anomaly_run_window by (by rewrite Hw).
    eexists. split; [reflexivity|]. rewrite Hw, map_map. apply map_id.
Qed.


(** X8.  With data in the month and no state or several states selected,
    the run fits no model: when every selected state has an entry in the
    household table it completes with the cost summary alone, one row per
    selected state, and with neither forecast nor anomaly labels. *)
Theorem run_several_states (inp : inputs) (df : list row) :
  df_filtered df (year inp) (month inp) ≠ [] →
  length (states_selected inp) ≠ 1%nat →
  (∀ s, s ∈ states_selected inp → s ∈ dom households_per_state) →
  ∃ summary,
    run yhat_model decision_function csv_date csv_float format_2f
      format_float inp df = Ok (Completed summary None None)
    ∧ map summary_State summary = states_selected inp.
Proof.
  intros Hne Hlen Hdom. rewrite run_sections by done.
  destruct (summary_data_returns (df_filtered df (year inp) (month inp))
              (tariff inp) (states_selected inp) Hdom) as (summary & -> & Hst).
  exists summary. split; [|done]. cbn [mbind result_bind].
  by destruct (states_selected inp) as [|s [|s' l]].
Qed.

(** X9.  Whenever a run completes with a forecast section, exactly one state
    is selected, the chart shows the forecast of that state, which is not
    empty, and anomaly labels come with it, one per record of the state in
    the month.  The message exists exactly when the report was requested;
    it is then addressed to the entered e-mail and computed from the
    charted forecast, whose mean is a number. *)
Theorem run_forecast_section (inp : inputs) (df : list row)
    (summary : list summary_row) (fs : forecast_section)
    (anomalies : option (list (row * scalar))) :
  run yhat_model decision_function csv_date csv_float format_2f
    format_float inp df = Ok (Completed summary (Some fs) anomalies) →
  ∃ s, states_selected inp = [s]
    ∧ forecast_run yhat_model df s = Ok (forecast_chart fs)
    ∧ forecast_chart fs ≠ []
    ∧ (∃ q, avg_forecast (forecast_chart fs) = Fin q)
    ∧ sent fs
      = (if send_report inp
         then Some (msg csv_date csv_float format_2f format_float s
                      (email_id inp) (threshold_kwh inp) (forecast_chart fs))
         else None)
    ∧ (∀ m, sent fs = Some m → To m = email_id inp)
    ∧ ∃ labelled,
        anomalies = Some labelled
        ∧ map fst labelled
          = of_state (df_filtered df (year inp) (month inp)) s.
Proof.
  intros Hrun.
  destruct (decide (df_filtered df (year inp) (month inp) = [])) as [E|Hne].
  { unfold run in Hrun. rewrite E in Hrun. discriminate Hrun. }
  rewrite run_sections in Hrun by done.
  destruct (summary_data _ _ _) as [summary'|e'];
    cbn [mbind result_bind] in Hrun; [|discriminate Hrun].
  destruct (states_selected inp) as [|s [|s' l]];
    cbn [mbind result_bind] in Hrun; try discriminate Hrun.
  exists s. split; [done|].
  destruct (forecast_run yhat_model df s) as [ff|e'] eqn:Hff;
    cbn [mbind result_bind] in Hrun; [|discriminate Hrun].
  destruct (anomaly_run_selected (df_filtered df (year inp) (month inp)) s)
    as [[_ Han]|[_ (labelled & Han & Hrows)]];
    rewrite Han in Hrun; cbn in Hrun; [discriminate Hrun|].
  injection Hrun as _ <- <-. cbn [forecast_chart sent].
  pose proof (forecast_run_nonempty _ _ _ _ Hff) as Hnonempty.
  split; [done|]. split; [done|].
  split; [by apply avg_forecast_number|]. split; [done|].
  split; [|by eexists].
  intros m. destruct (send_report inp); [|done]. by intros [= <-].
Qed.

End RunFacts.


Lemma run_several_states_witness :
  ∃ summary,
    run mean_yhat above_400 no_text no_text no_text no_text
      january_both bihar_gujarat_jan = Ok (Completed summary None None)
    ∧ map summary_State summary = ["Bihar"; "Gujarat"].
Proof.
  apply (run_several_states mean_yhat above_400 no_text no_text no_text
           no_text january_both bihar_gujarat_jan).
  - vm_compute. discriminate.
  - vm_compute. lia.
  - intros s Hs. apply elem_of_dom. cbn in Hs.
    apply elem_of_cons in Hs as [->|Hs]; [by eexists|].
    apply list_elem_of_singleton in Hs as ->. by eexists.
Defined.


Lemma run_forecast_section_witness :
  ∃ fs,
    (∃ summary anomalies,
       run mean_yhat above_400 no_text no_text no_text no_text
         january_bihar_report bihar_jan_jun
       = Ok (Completed summary (Some fs) anomalies))
    ∧ forecast_chart fs ≠ []
    ∧ ∀ m, sent fs = Some m → To m = "user@example.com".
Proof.
  assert (∃ summary fs anomalies,
            run mean_yhat above_400 no_text no_text no_text no_text
              january_bihar_report bihar_jan_jun
            = Ok (Completed summary (Some fs) anomalies)) as Hrun
    by (eexists _, _, _; vm_compute; reflexivity).
  destruct Hrun as (summary & fs & anomalies & Hrun).
  exists fs. split; [by eauto|].
  destruct (run_forecast_section mean_yhat above_400 no_text no_text no_text
              no_text january_bihar_report bihar_jan_jun summary fs anomalies
              Hrun) as (s & _ & _ & Hne & _ & _ & HTo & _).
  split; [exact Hne|exact HTo].
Defined.

(** ** The default selection *)

(** X10.  When the month under analysis has data, the default of the state
    selection is a single state that is on offer and has a record in the
    month, so that anomaly detection on the default selection returns a
    labelling. *)
Theorem default_selection_valid
    (decision_function :
       IsolationForest.params → list (list Qc) → list Qc → Qc)
    (df : list row) (y m : Z) :
  df_filtered df y m ≠ [] →
  ∃ s, default_selection (df_filtered df y m) = Some [s]
    ∧ s ∈ options df
    ∧ of_state (df_filtered df y m) s ≠ []
    ∧ returns (anomaly_run decision_function
                 (df_compare (df_filtered df y m) [s]) s).
Proof.
  intros Hne. destruct (df_filtered df y m) as [|r dff] eqn:E; [done|].
  assert (r ∈ df_filtered df y m) as Hr by (rewrite E; left).
  exists (State r). split; [done|].
  assert (of_state (r :: dff) (State r) ≠ []) as Hw.
  { unfold of_state. simpl. by rewrite bool_decide_eq_true_2. }
  split; [|split; [done|]].
  - apply elem_of_options. exists r. split; [|done].
    by apply elem_of_df_filtered in Hr as [? _].
  - rewrite anomaly_run_window; [by eexists|].
    by rewrite of_state_df_compare by left.
Qed.

Lemma default_selection_valid_witness :
  default_selection (df_filtered bihar_feb_gujarat_jan 2025 1)
  = Some ["Gujarat"]
  ∧ "Gujarat" ∈ options bihar_feb_gujarat_jan.
Proof.
  assert (df_filtered bihar_feb_gujarat_jan 2025 1 ≠ []) as Hne
    by (vm_compute; discriminate).
  destruct (default_selection_valid above_400 bihar_feb_gujarat_jan 2025 1 Hne)
    as (s & Hs & Hopt & _).
  assert (default_selection (df_filtered bihar_feb_gujarat_jan 2025 1)
          = Some ["Gujarat"]) as Hd by (vm_compute; reflexivity).
  split; [exact Hd|].
  rewrite Hd in Hs. injection Hs as <-. exact Hopt.
Defined.

(** ** The attached report *)

Lemma count_char_append (c : Ascii.ascii) (a b : string) :
  count_char c (a +:+ b) = (count_char c a + count_char c b)%nat.
Proof.
  induction a as [|x a IH]; [done|].
  unfold String.app in *. simpl. rewrite IH. lia.
Qed.

Lemma append_empty_r (a : string) : a +:+ "" = a.
Proof.
  induction a as [|x a IH]; [done|].
  unfold String.app in *. simpl. by rewrite IH.
Qed.

Lemma concat_cons (x : string) (l : list string) :
  String.concat "" (x :: l) = x +:+ String.concat "" l.
Proof. destruct l; simpl; [by rewrite append_empty_r|reflexivity]. Qed.

Section CsvFacts.

Variable csv_date : Z -> string.
Variable csv_float : Qc -> string.

Lemma count_char_rows (c : Ascii.ascii) (k : nat) (rows : list (Z * Qc)) :
  (∀ r, r ∈ rows →
     count_char c (csv_date r.1 +:+ "," +:+ csv_float r.2 +:+ nl) = k) →
  count_char c
    (String.concat ""
       (map (fun r => csv_date r.1 +:+ "," +:+ csv_float r.2 +:+ nl) rows))
  = (k * length rows)%nat.
Proof.
  induction rows as [|r rows IH]; intros Hk; [simpl; lia|].
  cbn [map length]. rewrite concat_cons, count_char_append.
  rewrite (Hk r) by left. rewrite IH; [lia|].
  intros r' Hr'. apply Hk. by right.
Qed.

(** X12.  When the text of a date or of a value contains neither a line
    break nor a comma, the attached report has one line per forecast point
    after its header line, and one comma on every line: both characters
    occur once more than there are forecast points. *)
Theorem report_csv_shape (ff : list Prophet.forecast_row) :
  (∀ d, count_char (Ascii.ascii_of_nat 10) (csv_date d) = 0%nat
        ∧ count_char (Ascii.ascii_of_nat 44) (csv_date d) = 0%nat) →
  (∀ q, count_char (Ascii.ascii_of_nat 10) (csv_float q) = 0%nat
        ∧ count_char (Ascii.ascii_of_nat 44) (csv_float q) = 0%nat) →
  count_char (Ascii.ascii_of_nat 10) (report_csv csv_date csv_float ff)
  = S (length ff)
  ∧ count_char (Ascii.ascii_of_nat 44) (report_csv csv_date csv_float ff) = S (length ff).
Proof.
  intros Hdate Hfloat. unfold report_csv, to_csv.
  rewrite !count_char_append.
  rewrite (count_char_rows (Ascii.ascii_of_nat 10) 1),
          (count_char_rows (Ascii.ascii_of_nat 44) 1).
  - unfold report_df. rewrite length_map. simpl. lia.
  - intros r _. rewrite !count_char_append.
    rewrite (proj2 (Hdate _)), (proj2 (Hfloat _)). reflexivity.
  - intros r _. rewrite !count_char_append.
    rewrite (proj1 (Hdate _)), (proj1 (Hfloat _)). reflexivity.
Qed.

End CsvFacts.

Lemma report_csv_shape_witness :
  count_char (Ascii.ascii_of_nat 10)
    (report_csv no_text no_text
       [Prophet.mk_forecast_row 20270 (Q2Qc 1);
        Prophet.mk_forecast_row 20271 (Q2Qc 2)]) = 3%nat.
Proof.
  refine (proj1 (report_csv_shape no_text no_text _ _ _)).
  - intros d. split; reflexivity.
  - intros q. split; reflexivity.
Defined.

(** ** Order and repetition of the historical dates *)

Lemma increasing_same_elements (l1 l2 : list Z) :
  StronglySorted Z.lt l1 → StronglySorted Z.lt l2 →
  (∀ x, x ∈ l1 ↔ x ∈ l2) → l1 = l2.
Proof.
  intros H1. revert l2. induction H1 as [|a l1 Hs1 IH Ha]; intros l2 H2 Hel.
  - destruct l2 as [|b l2]; [done|].
    assert (b ∈ []) as Hb by (apply Hel; left). by apply elem_of_nil in Hb.
  - destruct H2 as [|b l2 Hs2 Hb].
    { assert (a ∈ []) as Ha' by (apply Hel; left). by apply elem_of_nil in Ha'. }
    rewrite Forall_forall in Ha, Hb.
    assert (a = b) as <-.
    { assert (a ∈ b :: l2) as Hab by (apply Hel; left).
      assert (b ∈ a :: l1) as Hba by (apply Hel; left).
      apply elem_of_cons in Hab as [?|Hab]; [done|].
      apply elem_of_cons in Hba as [?|Hba]; [done|].
      specialize (Ha _ Hba). specialize (Hb _ Hab). lia. }
    f_equal. apply IH; [done|]. intros x. split; intros Hx.
    + assert (x ∈ a :: l2) as Hx' by (apply Hel; by right).
      apply elem_of_cons in Hx' as [->|?]; [|done].
      specialize (Ha _ Hx). lia.
    + assert (x ∈ a :: l1) as Hx' by (apply Hel; by right).
      apply elem_of_cons in Hx' as [->|?]; [|done].
      specialize (Hb _ Hx). lia.
Qed.

Lemma future_dates_same_dates (ts ts' : list (Z * Qc)) (n : nat) :
  (∀ d, d ∈ map fst ts ↔ d ∈ map fst ts') →
  future_dates ts n = future_dates ts' n.
Proof.
  intros Hel. unfold future_dates.
  assert (pd.sort_values (pd.unique (map fst ts))
          = pd.sort_values (pd.unique (map fst ts'))) as ->; [|done].
  apply increasing_same_elements; [apply history_dates_increasing..|].
  intros x. by rewrite !elem_of_history_dates.
Qed.

Lemma distinct_dates_same_dates (ts ts' : list (Z * Qc)) :
  (∀ d, d ∈ map fst ts ↔ d ∈ map fst ts') →
  Prophet.distinct_dates ts = Prophet.distinct_dates ts'.
Proof.
  intros Hel. unfold Prophet.distinct_dates.
  apply Permutation_length, NoDup_Permutation; [apply NoDup_unique..|].
  intros d. by rewrite !elem_of_unique.
Qed.

(** X13.  The dates of the forecast depend only on which dates occur in the
    history: two histories with the same set of at least two dates, in
    whatever order and with whatever repetitions, get forecasts on the
    same dates. *)
Theorem forecast_dates_ignore_order (yhat_model : list (Z * Qc) → Z → Qc)
    (ts ts' : list (Z * Qc)) :
  (2 ≤ Prophet.distinct_dates ts)%nat →
  (∀ d, d ∈ map fst ts ↔ d ∈ map fst ts') →
  ∃ ff ff', forecast_with yhat_model 184 ts = Ok ff
    ∧ forecast_with yhat_model 184 ts' = Ok ff'
    ∧ map Prophet.ds ff = map Prophet.ds ff'.
Proof.
  intros Hdates Hel.
  assert (2 ≤ Prophet.distinct_dates ts')%nat as Hdates'
    by (by rewrite <- (distinct_dates_same_dates ts ts' Hel)).
  destruct (forecast_with_dates yhat_model ts Hdates) as (ff & Hrun & Hds).
  destruct (forecast_with_dates yhat_model ts' Hdates') as (ff' & Hrun' & Hds').
  exists ff, ff'. split; [done|]. split; [done|].
  by rewrite Hds, Hds', (future_dates_same_dates ts ts' 184 Hel).
Qed.

Lemma forecast_dates_ignore_order_witness :
  ∃ ff ff',
    forecast_with mean_yhat 184 (ts bihar_jan_1_14 "Bihar") = Ok ff
    ∧ forecast_with mean_yhat 184
        (rev (ts bihar_jan_1_14 "Bihar") ++ ts bihar_jan_1_14 "Bihar") = Ok ff'
    ∧ map Prophet.ds ff = map Prophet.ds ff'.
Proof.
  apply forecast_dates_ignore_order.
  - vm_compute. lia.
  - intros d. rewrite map_app, map_rev, elem_of_app.
    rewrite (list_elem_of_In (rev _) d), <- in_rev, <- list_elem_of_In. tauto.
Defined.
